(** * The CES survey contribution of the workbench

    A shallow embedding of
    [src/vs/workbench/contrib/surveys/browser/ces.contribution.ts]:
    the gating and delay computation of the customer-effort survey prompt,
    the three prompt choices, and the registration guard.

    Services injected into the contribution are records; the effects of the
    code (storage reads and writes, telemetry, treatment lookups, clock
    reads, the one-shot timer, the notification, the opener) are threaded
    through a small state-and-rejection monad that also records every call
    in a chronological trace. *)

From Stdlib Require Import ZArith Lia Bool Ascii.
From stdpp Require Import base option strings list gmap.

Local Open Scope Z_scope.

(** ** JavaScript numbers

    Every number the contribution handles is either an integral count of
    milliseconds or [NaN] (the time value of an invalid [Date]).  Time values
    are bounded by 8.64e15 in absolute value, so the sums and differences
    below stay exact in double precision for any clock a host can report;
    they are modelled over [Z], with [None] for [NaN]. *)
Module Num.

Definition number : Type := option Z.

Definition of_Z (z : Z) : number := Some z.
Definition NaN : number := None.

Definition add (a b : number) : number :=
  match a, b with
  | Some x, Some y => Some (x + y)
  | _, _ => None
  end.

Definition sub (a b : number) : number :=
  match a, b with
  | Some x, Some y => Some (x - y)
  | _, _ => None
  end.

(** [a < b]; false as soon as one side is [NaN]. *)
Definition lt (a b : number) : bool :=
  match a, b with
  | Some x, Some y => x <? y
  | _, _ => false
  end.

(** [a > b]; false as soon as one side is [NaN]. *)
Definition gt (a b : number) : bool := lt b a.

Definition isNaN (a : number) : bool :=
  match a with
  | None => true
  | Some _ => false
  end.

End Num.

Abbreviation number := Num.number.

(** ** Constants of the module *)

Definition WAIT_TIME_TO_SHOW_SURVEY : Z := 1000 * 60 * 60.
Definition MAX_INSTALL_AGE : Z := 1000 * 60 * 60 * 24.
Definition REMIND_LATER_DELAY : Z := 1000 * 60 * 60 * 4.
Definition SKIP_SURVEY_KEY : string := "ces/skipSurvey".
Definition REMIND_LATER_DATE_KEY : string := "ces/remindLaterDate".

(** ** Truthiness, as [if (x)] and [!x] see it *)

Definition truthy_string (s : string) : bool :=
  match s with
  | EmptyString => false
  | String _ _ => true
  end.

Definition truthy_opt_string (s : option string) : bool :=
  match s with
  | Some s => truthy_string s
  | None => false
  end.

Definition truthy_opt_bool (b : option bool) : bool :=
  match b with
  | Some b => b
  | None => false
  end.

(** ** Services *)

(** How an awaited promise settles. *)
Inductive Settled (A : Type) : Type :=
  | Fulfilled (a : A)
  | Rejected.
Arguments Fulfilled {A} a.
Arguments Rejected {A}.

Record ITelemetryInfo : Type := {
  firstSessionDate : string;
  machineId : string
}.

Record IProductService : Type := {
  cesSurveyUrl : option string;
  version : string
}.

(** [getTreatment<T>(name)], at the two types the contribution asks for.
    [None] is [undefined]. *)
Record ITASExperimentService : Type := {
  getTreatment_boolean : string -> Settled (option bool);
  getTreatment_string : string -> Settled (option string)
}.

(** The instance fields set by the constructor's parameter properties.
    The experiment service is injected with [@optional]. *)
Record Services : Type := {
  productService : IProductService;
  tasExperimentService : option ITASExperimentService;
  telemetryInfo : Settled ITelemetryInfo
}.

(** What the module imports from the platform and the language runtime:
    [language] and [platform], [nls.localize], [new Date(s).getTime()],
    [new Date(t).toUTCString()], [encodeURIComponent], and the system clock
    ([clock n] is the value of the [n]-th read). *)
Record Env : Type := {
  language : string;
  platform : string;
  localize : string -> string -> string;
  Date_getTime : string -> number;
  Date_toUTCString : Z -> string;
  encodeURIComponent : string -> string;
  clock : nat -> Z
}.

(** ** State and trace *)

Inductive UserReaction : Type :=
  | accept
  | remindLater
  | neverShowAgain.

Inductive Event : Type :=
  | StorageGet (key : string)
  | StorageStore (key value : string)
  | PublicLog (eventName : string) (userReaction : UserReaction)
  | GetTelemetryInfo
  | GetTreatment (name : string)
  | OpenerOpen (url : string)
  | NotificationPrompt (message : string) (labels : list string) (sticky : bool)
  | Schedule (delay : number).

(** The one-shot timer: [pending] is the delay it is armed with, if armed. *)
Record RunOnceScheduler : Type := {
  pending : option number
}.

Record State : Type := {
  storage : gmap string string;
  promptScheduler : option RunOnceScheduler;
  ticks : nat;
  trace : list Event
}.

Definition log (e : Event) (st : State) : State :=
  {| storage := storage st;
     promptScheduler := promptScheduler st;
     ticks := ticks st;
     trace := trace st ++ [e] |}.

(** ** The monad of the contribution's code *)

Definition Task (A : Type) : Type := State -> Settled A * State.

#[export] Instance task_ret : MRet Task :=
  fun A (a : A) st => (Fulfilled a, st).

#[export] Instance task_bind : MBind Task :=
  fun A B (k : A -> Task B) (m : Task A) st =>
    match m st with
    | (Fulfilled a, st') => k a st'
    | (Rejected, st') => (Rejected, st')
    end.

(** A call whose promise is dropped: a rejection stays with the host. *)
Definition detach (m : Task unit) : Task unit :=
  fun st => (Fulfilled tt, snd (m st)).

(** Awaiting a promise that settles as [r]. *)
Definition await {A : Type} (r : Settled A) : Task A :=
  fun st => (r, st).

Definition emit (e : Event) : Task unit :=
  fun st => (Fulfilled tt, log e st).

(** What a read of [key] with fallback [''] yields. *)
Definition stored (st : State) (key : string) : string :=
  default "" (storage st !! key).

Module storageService.

(** [get(key, StorageScope.GLOBAL, '')] *)
Definition get (key : string) : Task string :=
  fun st => (Fulfilled (stored st key), log (StorageGet key) st).

(** [store(key, value, StorageScope.GLOBAL, StorageTarget.USER)] *)
Definition store (key value : string) : Task unit :=
  fun st =>
    (Fulfilled tt,
     log (StorageStore key value)
       {| storage := <[key := value]> (storage st);
          promptScheduler := promptScheduler st;
          ticks := ticks st;
          trace := trace st |}).

End storageService.

Section Contribution.

Context (env : Env).

(** [Date.now()] and [new Date()] *)
Definition Date_now : Task Z :=
  fun st =>
    (Fulfilled (clock env (ticks st)),
     {| storage := storage st;
        promptScheduler := promptScheduler st;
        ticks := S (ticks st);
        trace := trace st |}).

(** [this.promptScheduler = this._register(new RunOnceScheduler(...))] *)
Definition new_RunOnceScheduler : Task unit :=
  fun st =>
    (Fulfilled tt,
     {| storage := storage st;
        promptScheduler := Some {| pending := None |};
        ticks := ticks st;
        trace := trace st |}).

(** [this.promptScheduler.schedule(delay)]: replaces whatever was pending.
    On an instance whose scheduler was never assigned the call throws. *)
Definition schedule (delay : number) : Task unit :=
  fun st =>
    match promptScheduler st with
    | None => (Rejected, st)
    | Some _ =>
        (Fulfilled tt,
         log (Schedule delay)
           {| storage := storage st;
              promptScheduler := Some {| pending := Some delay |};
              ticks := ticks st;
              trace := trace st |})
    end.

(** [await this.tasExperimentService?.getTreatment<boolean>(name)] *)
Definition getTreatment_opt_boolean (this : Services) (name : string)
  : Task (option bool) :=
  match tasExperimentService this with
  | None => mret None
  | Some tas => emit (GetTreatment name);; await (getTreatment_boolean tas name)
  end.

(** [await this.tasExperimentService?.getTreatment<string>(name)] *)
Definition getTreatment_opt_string (this : Services) (name : string)
  : Task (option string) :=
  match tasExperimentService this with
  | None => mret None
  | Some tas => emit (GetTreatment name);; await (getTreatment_string tas name)
  end.

(** [this.telemetryService.getTelemetryInfo()] *)
Definition getTelemetryInfo (this : Services) : Task ITelemetryInfo :=
  emit GetTelemetryInfo;; await (telemetryInfo this).

Definition _skipSurvey (this : Services) : Task unit :=
  storageService.store SKIP_SURVEY_KEY (version (productService this)).

Definition _prepareSurvey (this : Services) : Task unit :=
  isCandidate ← getTreatment_opt_boolean this "CESSurvey";
  if negb (truthy_opt_bool isCandidate) then
    _skipSurvey this
  else
    remindLaterDate ← storageService.get REMIND_LATER_DATE_KEY;
    if truthy_string remindLaterDate then
      now ← Date_now;
      let timeToRemind :=
        Num.sub (Num.add (Date_getTime env remindLaterDate)
                         (Num.of_Z REMIND_LATER_DELAY))
                (Num.of_Z now) in
      schedule (if Num.gt timeToRemind (Num.of_Z 0)
                then timeToRemind
                else Num.of_Z 0)
    else
      info ← getTelemetryInfo this;
      now ← Date_now;
      let timeFromInstall :=
        Num.sub (Num.of_Z now) (Date_getTime env (firstSessionDate info)) in
      let isNewInstall :=
        negb (Num.isNaN timeFromInstall)
        && Num.lt timeFromInstall (Num.of_Z MAX_INSTALL_AGE) in
      if negb isNewInstall then
        _skipSurvey this
      else
        schedule (if Num.lt timeFromInstall (Num.of_Z WAIT_TIME_TO_SHOW_SURVEY)
                  then Num.sub (Num.of_Z WAIT_TIME_TO_SHOW_SURVEY) timeFromInstall
                  else Num.of_Z 0).

(** The closure [sendTelemetry] of the timer callback. *)
Definition sendTelemetry (userReaction : UserReaction) : Task unit :=
  emit (PublicLog "cesSurvey:popup" userReaction).

(** [`${x}`] for a value of type [string | undefined]. *)
Definition template_string (x : option string) : string :=
  default "undefined" x.

(** The template literal handed to [URI.parse] by the primary choice. *)
Definition surveyUrl (this : Services) (info : ITelemetryInfo) : string :=
  template_string (cesSurveyUrl (productService this))
  +:+ "?o=" +:+ encodeURIComponent env (platform env)
  +:+ "&v=" +:+ encodeURIComponent env (version (productService this))
  +:+ "&m=" +:+ encodeURIComponent env (machineId info)
  +:+ "}".

Record IPromptChoice : Type := {
  label : string;
  run : Task unit
}.

(** The array of choices passed to [notificationService.prompt]. *)
Definition promptChoices (this : Services) (button : string)
  : list IPromptChoice :=
  [ {| label := button;
       run :=
         sendTelemetry neverShowAgain;;
         detach (info ← getTelemetryInfo this;
                 emit (OpenerOpen (surveyUrl this info));;
                 _skipSurvey this) |};
    {| label := localize env "remindLater" "Remind Me later";
       run :=
         sendTelemetry remindLater;;
         now ← Date_now;
         storageService.store REMIND_LATER_DATE_KEY (Date_toUTCString env now);;
         detach (_prepareSurvey this) |};
    {| label := localize env "neverAgain" "Don't Show Again";
       run :=
         sendTelemetry neverShowAgain;;
         _skipSurvey this |} ].

(** The callback of the [RunOnceScheduler]. *)
Definition runner (this : Services) : Task unit :=
  treatment ← getTreatment_opt_string this "CESSurveyMessage";
  let message :=
    default (localize env "cesSurveyQuestion"
      "Got a moment to help the VS Code team? Please tell us about your experience with VS Code so far.")
      treatment in
  treatment ← getTreatment_opt_string this "CESSurveyButton";
  let button := default (localize env "giveFeedback" "Give Feedback") treatment in
  emit (NotificationPrompt message (label <$> promptChoices this button) true).

(** The constructor of [CESContribution]. *)
Definition CESContribution (this : Services) : Task unit :=
  if negb (truthy_opt_string (cesSurveyUrl (productService this))) then
    mret tt
  else
    skipSurvey ← storageService.get SKIP_SURVEY_KEY;
    if truthy_string skipSurvey then
      mret tt
    else
      new_RunOnceScheduler;;
      detach (_prepareSurvey this).

(** The guarded registration at the end of the module: the contributions
    this module hands to the workbench registry. *)
Definition registerWorkbenchContribution : list (Services -> Task unit) :=
  if String.eqb (language env) "en" then [CESContribution] else [].

(** Modelled from the spec: the workbench registry itself is outside the
    module.  It constructs each registered contribution once, when the
    lifecycle reaches [Restored]; a contribution that was not registered is
    never constructed. *)
Definition workbench_restored (this : Services) : Task unit :=
  foldr (fun ctor rest => ctor this;; rest) (mret tt)
        registerWorkbenchContribution.

End Contribution.

(** ** Observing a run *)

(** The events a task appends to the trace when started in [st]. *)
Definition emitted {A : Type} (m : Task A) (st : State) : list Event :=
  drop (length (trace st)) (trace (snd (m st))).

(** The calls recorded in a list of events, by kind. *)
Definition writes (evs : list Event) : list (string * string) :=
  omap (fun e => match e with StorageStore k v => Some (k, v) | _ => None end) evs.

Definition schedules (evs : list Event) : list number :=
  omap (fun e => match e with Schedule d => Some d | _ => None end) evs.

Definition publicLogs (evs : list Event) : list (string * UserReaction) :=
  omap (fun e => match e with PublicLog n r => Some (n, r) | _ => None end) evs.

Definition opened (evs : list Event) : list string :=
  omap (fun e => match e with OpenerOpen u => Some u | _ => None end) evs.

Definition prompts (evs : list Event) : list (string * list string * bool) :=
  omap (fun e => match e with
                 | NotificationPrompt m ls sticky => Some (m, ls, sticky)
                 | _ => None
                 end) evs.

(** How [await this.tasExperimentService?.getTreatment<string>(name)]
    settles: [undefined] without a service, the service's answer with one. *)
Definition copy_treatment (this : Services) (name : string)
  : Settled (option string) :=
  match tasExperimentService this with
  | None => Fulfilled None
  | Some tas => getTreatment_string tas name
  end.

Definition telemetryInfo_reads (evs : list Event) : nat :=
  length (omap (fun e => match e with GetTelemetryInfo => Some tt | _ => None end) evs).

(** The events that end a gating decision: a write of the skip flag or a
    call of [schedule]. *)
Definition is_decision (e : Event) : bool :=
  match e with
  | StorageStore key _ => String.eqb key SKIP_SURVEY_KEY
  | Schedule _ => true
  | _ => false
  end.

Definition decision_count (evs : list Event) : nat :=
  length (List.filter is_decision evs).

(** [_prepareSurvey] ends in a permanent skip: its only write is the skip
    flag, set to the product version, and the timer is left as it was. *)
Definition prepare_skips (env : Env) (this : Services) (st : State) : Prop :=
  let evs := emitted (_prepareSurvey env this) st in
  let st' := snd (_prepareSurvey env this st) in
  writes evs = [(SKIP_SURVEY_KEY, version (productService this))]
  /\ schedules evs = []
  /\ storage st' = <[SKIP_SURVEY_KEY := version (productService this)]> (storage st)
  /\ promptScheduler st' = promptScheduler st.

(** [_prepareSurvey] arms the timer with [wait] milliseconds and writes
    nothing. *)
Definition prepare_arms (env : Env) (this : Services) (st : State) (wait : Z)
  : Prop :=
  let evs := emitted (_prepareSurvey env this) st in
  let st' := snd (_prepareSurvey env this st) in
  writes evs = []
  /\ schedules evs = [Num.of_Z wait]
  /\ storage st' = storage st
  /\ promptScheduler st' = Some {| pending := Some (Num.of_Z wait) |}.

(** The experiment service answers [candidate] to the ["CESSurvey"] lookup. *)
Definition eligibility (this : Services) (candidate : bool) : Prop :=
  exists tas, tasExperimentService this = Some tas
    /\ getTreatment_boolean tas "CESSurvey" = Fulfilled (Some candidate).

(** The ["CESSurvey"] treatment is unavailable: there is no experiment
    service, or the lookup yields [undefined]. *)
Definition eligibility_unavailable (this : Services) : Prop :=
  match tasExperimentService this with
  | None => True
  | Some tas => getTreatment_boolean tas "CESSurvey" = Fulfilled None
  end.

(** The same services with another answer of [getTelemetryInfo]. *)
Definition with_telemetryInfo (ti : Settled ITelemetryInfo) (this : Services)
  : Services :=
  {| productService := productService this;
     tasExperimentService := tasExperimentService this;
     telemetryInfo := ti |}.

(** The survey link as the interface section of the specification words it:
    the configured URL followed by [?o=<platform>&v=<version>&m=<machineId>],
    each value percent-encoded. *)
Definition spec_surveyUrl (env : Env) (this : Services) (info : ITelemetryInfo)
  : string :=
  template_string (cesSurveyUrl (productService this))
  +:+ "?o=" +:+ encodeURIComponent env (platform env)
  +:+ "&v=" +:+ encodeURIComponent env (version (productService this))
  +:+ "&m=" +:+ encodeURIComponent env (machineId info).

(** ** A concrete host

    Used to run the contribution on explicit inputs. *)
Module Sample.

Definition hex_digit (n : N) : ascii :=
  match n with
  | 0%N => "0" | 1%N => "1" | 2%N => "2" | 3%N => "3"
  | 4%N => "4" | 5%N => "5" | 6%N => "6" | 7%N => "7"
  | 8%N => "8" | 9%N => "9" | 10%N => "A" | 11%N => "B"
  | 12%N => "C" | 13%N => "D" | 14%N => "E" | _ => "F"
  end%char.

(** The characters [encodeURIComponent] leaves alone: ASCII letters, digits
    and [- _ . ! ~ * ' ( )]. *)
Definition uri_unreserved (c : ascii) : bool :=
  let n := N_of_ascii c in
  ((65 <=? n) && (n <=? 90) || (97 <=? n) && (n <=? 122)
   || (48 <=? n) && (n <=? 57)
   || bool_decide (n ∈ [45; 95; 46; 33; 126; 42; 39; 40; 41]))%N.

(** [encodeURIComponent] on a string given by its UTF-8 bytes. *)
Fixpoint percent_encode (s : string) : string :=
  match s with
  | EmptyString => EmptyString
  | String c rest =>
      if uri_unreserved c then String c (percent_encode rest)
      else
        let n := N_of_ascii c in
        String "%" (String (hex_digit (n / 16)) (String (hex_digit (n mod 16))
          (percent_encode rest)))
  end.

(** A finite fragment of [Date]: the instants the examples use, with their
    UTC strings. *)
Definition dates : list (string * Z) :=
  [ ("Thu, 01 Jan 1970 00:00:00 GMT", 0);
    ("Thu, 01 Jan 1970 01:00:00 GMT", 3600000);
    ("Thu, 01 Jan 1970 05:00:00 GMT", 18000000);
    ("Thu, 01 Jan 1970 06:00:00 GMT", 21600000);
    ("Thu, 01 Jan 1970 10:00:00 GMT", 36000000);
    ("Fri, 02 Jan 1970 00:00:00 GMT", 86400000);
    ("Fri, 02 Jan 1970 01:00:00 GMT", 90000000) ].

Definition getTime (s : string) : number :=
  d ← list_find (fun d => String.eqb (fst d) s) dates; Some (snd (snd d)).

Definition toUTCString (t : Z) : string :=
  default "Invalid Date"
    (d ← list_find (fun d => Z.eqb (snd d) t) dates; Some (fst (snd d))).

Definition env (lang : string) (now : Z) : Env :=
  {| language := lang;
     platform := "linux";
     localize := fun _ message => message;
     Date_getTime := getTime;
     Date_toUTCString := toUTCString;
     encodeURIComponent := percent_encode;
     clock := fun _ => now |}.

Definition product : IProductService :=
  {| cesSurveyUrl := Some "https://example.com/ces"; version := "1.52.0" |}.

Definition info (first : string) : ITelemetryInfo :=
  {| firstSessionDate := first; machineId := "a b/c" |}.

Definition tas (candidate : option bool) : ITASExperimentService :=
  {| getTreatment_boolean := fun _ => Fulfilled candidate;
     getTreatment_string := fun _ => Fulfilled None |}.

Definition services (candidate : option bool) (first : string) : Services :=
  {| productService := product;
     tasExperimentService := Some (tas candidate);
     telemetryInfo := Fulfilled (info first) |}.

(** The same services for a product without a survey link. *)
Definition services_without_url : Services :=
  {| productService := {| cesSurveyUrl := None; version := "1.52.0" |};
     tasExperimentService := Some (tas (Some true));
     telemetryInfo := Fulfilled (info "Thu, 01 Jan 1970 00:00:00 GMT") |}.

(** An experiment service whose lookups all reject. *)
Definition tas_rejecting : ITASExperimentService :=
  {| getTreatment_boolean := fun _ => Rejected;
     getTreatment_string := fun _ => Rejected |}.

(** An experiment service that answers the display-copy lookups. *)
Definition tas_copy (message button : option string) : ITASExperimentService :=
  {| getTreatment_boolean := fun _ => Fulfilled (Some true);
     getTreatment_string := fun name =>
       if String.eqb name "CESSurveyMessage" then Fulfilled message
       else Fulfilled button |}.

(** Services with a chosen experiment service and telemetry answer. *)
Definition services_of (t : option ITASExperimentService)
    (ti : Settled ITelemetryInfo) : Services :=
  {| productService := product;
     tasExperimentService := t;
     telemetryInfo := ti |}.


(** A window whose contribution has been constructed, with [kv] persisted. *)
Definition state (kv : list (string * string)) : State :=
  {| storage := list_to_map kv;
     promptScheduler := Some {| pending := None |};
     ticks := 0;
     trace := [] |}.

(** A window before any contribution is constructed. *)
Definition fresh (kv : list (string * string)) : State :=
  {| storage := list_to_map kv;
     promptScheduler := None;
     ticks := 0;
     trace := [] |}.

End Sample.


(** * Properties *)

Lemma emitted_app {A : Type} (m : Task A) (st : State) (evs : list Event) :
  trace (snd (m st)) = trace st ++ evs -> emitted m st = evs.
Proof.
  intros H. unfold emitted. rewrite H. apply drop_app_length.
Qed.

Lemma emitted_unchanged {A : Type} (m : Task A) (st : State) :
  snd (m st) = st -> emitted m st = [].
Proof.
  intros H. apply emitted_app. rewrite H. symmetry. apply app_nil_r.
Qed.

(** Unfolds the monad and the primitive calls of the contribution. *)
Ltac run_task :=
  unfold _prepareSurvey, _skipSurvey, getTreatment_opt_boolean,
    getTreatment_opt_string, getTelemetryInfo, sendTelemetry,
    storageService.get, storageService.store, stored, schedule, Date_now,
    new_RunOnceScheduler, emit, await, detach, log,
    mbind, task_bind, mret, task_ret in *;
  cbn [fst snd storage promptScheduler ticks trace negb truthy_opt_bool] in *.

(** Brings a trace built by successive appends to the form [trace st ++ evs]. *)
Ltac flat_trace := rewrite <- ?app_assoc; cbn [app].

Section Gating.

Context (env : Env) (this : Services) (st : State).

Lemma prepare_ineligible (c : option bool) :
  (match tasExperimentService this with
   | None => Fulfilled None
   | Some tas => getTreatment_boolean tas "CESSurvey"
   end) = Fulfilled c ->
  truthy_opt_bool c = false ->
  prepare_skips env this st.
Proof.
  intros Hc Hf. unfold prepare_skips. cbv zeta.
  destruct (tasExperimentService this) as [tas|] eqn:Htas.
  - assert (Ht : trace (snd (_prepareSurvey env this st))
                 = trace st ++ [GetTreatment "CESSurvey";
                                StorageStore SKIP_SURVEY_KEY (version (productService this))]).
    { run_task. rewrite Htas. run_task. rewrite Hc. rewrite Hf. cbn. flat_trace. reflexivity. }
    rewrite (emitted_app _ _ _ Ht).
    repeat split; run_task; rewrite Htas; run_task; rewrite Hc, Hf; reflexivity.
  - injection Hc as <-.
    assert (Ht : trace (snd (_prepareSurvey env this st))
                 = trace st ++ [StorageStore SKIP_SURVEY_KEY (version (productService this))]).
    { run_task. rewrite Htas. reflexivity. }
    rewrite (emitted_app _ _ _ Ht).
    repeat split; run_task; rewrite Htas; reflexivity.
Qed.

Lemma prepare_remind_path (sch : RunOnceScheduler) :
  eligibility this true ->
  promptScheduler st = Some sch ->
  truthy_string (stored st REMIND_LATER_DATE_KEY) = true ->
  let timeToRemind :=
    Num.sub (Num.add (Date_getTime env (stored st REMIND_LATER_DATE_KEY))
                     (Num.of_Z REMIND_LATER_DELAY))
            (Num.of_Z (clock env (ticks st))) in
  let wait := if Num.gt timeToRemind (Num.of_Z 0) then timeToRemind else Num.of_Z 0 in
  _prepareSurvey env this st =
    (Fulfilled tt,
     {| storage := storage st;
        promptScheduler := Some {| pending := Some wait |};
        ticks := S (ticks st);
        trace := trace st ++ [GetTreatment "CESSurvey";
                              StorageGet REMIND_LATER_DATE_KEY;
                              Schedule wait] |}).
Proof.
  intros (tas & Htas & Hc) Hsch Hr. cbv zeta.
  run_task. rewrite Htas. run_task. rewrite Hc. run_task.
  rewrite Hr, Hsch. run_task. flat_trace. reflexivity.
Qed.

Lemma prepare_install_path (sch : RunOnceScheduler) (info : ITelemetryInfo) :
  eligibility this true ->
  promptScheduler st = Some sch ->
  truthy_string (stored st REMIND_LATER_DATE_KEY) = false ->
  telemetryInfo this = Fulfilled info ->
  let timeFromInstall :=
    Num.sub (Num.of_Z (clock env (ticks st)))
            (Date_getTime env (firstSessionDate info)) in
  let wait :=
    if Num.lt timeFromInstall (Num.of_Z WAIT_TIME_TO_SHOW_SURVEY)
    then Num.sub (Num.of_Z WAIT_TIME_TO_SHOW_SURVEY) timeFromInstall
    else Num.of_Z 0 in
  _prepareSurvey env this st =
    (Fulfilled tt,
     if negb (Num.isNaN timeFromInstall)
        && Num.lt timeFromInstall (Num.of_Z MAX_INSTALL_AGE)
     then
       {| storage := storage st;
          promptScheduler := Some {| pending := Some wait |};
          ticks := S (ticks st);
          trace := trace st ++ [GetTreatment "CESSurvey";
                                StorageGet REMIND_LATER_DATE_KEY;
                                GetTelemetryInfo;
                                Schedule wait] |}
     else
       {| storage := <[SKIP_SURVEY_KEY := version (productService this)]> (storage st);
          promptScheduler := promptScheduler st;
          ticks := S (ticks st);
          trace := trace st ++ [GetTreatment "CESSurvey";
                                StorageGet REMIND_LATER_DATE_KEY;
                                GetTelemetryInfo;
                                StorageStore SKIP_SURVEY_KEY
                                  (version (productService this))] |}).
Proof.
  intros (tas & Htas & Hc) Hsch Hr Hinfo. cbv zeta.
  run_task. rewrite Htas. run_task. rewrite Hc. run_task.
  rewrite Hr, Hinfo. run_task.
  destruct (negb _ && _); run_task.
  - rewrite Hsch. run_task. flat_trace. reflexivity.
  - flat_trace. reflexivity.
Qed.

Lemma arms_of_run (w : Z) (n : nat) (pre : list Event) :
  _prepareSurvey env this st =
    (Fulfilled tt,
     {| storage := storage st;
        promptScheduler := Some {| pending := Some (Num.of_Z w) |};
        ticks := n;
        trace := trace st ++ pre ++ [Schedule (Num.of_Z w)] |}) ->
  writes pre = [] -> schedules pre = [] ->
  prepare_arms env this st w.
Proof.
  intros Hrun Hw Hs. unfold prepare_arms. cbv zeta.
  rewrite (emitted_app (_prepareSurvey env this) st (pre ++ [Schedule (Num.of_Z w)]))
    by (rewrite Hrun; reflexivity).
  rewrite Hrun. unfold writes, schedules in *.
  rewrite !omap_app, Hw, Hs. repeat split; reflexivity.
Qed.

Lemma skips_of_run (n : nat) (pre : list Event) :
  _prepareSurvey env this st =
    (Fulfilled tt,
     {| storage := <[SKIP_SURVEY_KEY := version (productService this)]> (storage st);
        promptScheduler := promptScheduler st;
        ticks := n;
        trace := trace st ++ pre ++ [StorageStore SKIP_SURVEY_KEY
                                       (version (productService this))] |}) ->
  writes pre = [] -> schedules pre = [] ->
  prepare_skips env this st.
Proof.
  intros Hrun Hw Hs. unfold prepare_skips. cbv zeta.
  rewrite (emitted_app (_prepareSurvey env this) st
             (pre ++ [StorageStore SKIP_SURVEY_KEY (version (productService this))]))
    by (rewrite Hrun; reflexivity).
  rewrite Hrun. unfold writes, schedules in *.
  rewrite !omap_app, Hw, Hs. repeat split; reflexivity.
Qed.

(** C2. With no reminder persisted and a true eligibility treatment,
    [_prepareSurvey] decides on the install age [now - firstSessionDate]:
    a [NaN] age or an age of at least [MAX_INSTALL_AGE] persists the skip
    flag and arms nothing; a younger install is armed with
    [WAIT_TIME_TO_SHOW_SURVEY - age] when the age is below
    [WAIT_TIME_TO_SHOW_SURVEY] (exactly one hour for age 0) and with 0
    otherwise. *)
Theorem prepare_install_age (sch : RunOnceScheduler) (info : ITelemetryInfo) :
  eligibility this true ->
  promptScheduler st = Some sch ->
  stored st REMIND_LATER_DATE_KEY = "" ->
  telemetryInfo this = Fulfilled info ->
  let timeFromInstall :=
    Num.sub (Num.of_Z (clock env (ticks st)))
            (Date_getTime env (firstSessionDate info)) in
  (timeFromInstall = Num.NaN
   \/ (exists d, timeFromInstall = Num.of_Z d /\ MAX_INSTALL_AGE <= d) ->
   prepare_skips env this st)
  /\ (forall d, timeFromInstall = Num.of_Z d -> d < MAX_INSTALL_AGE ->
       d < WAIT_TIME_TO_SHOW_SURVEY ->
       prepare_arms env this st (WAIT_TIME_TO_SHOW_SURVEY - d))
  /\ (forall d, timeFromInstall = Num.of_Z d -> d < MAX_INSTALL_AGE ->
       WAIT_TIME_TO_SHOW_SURVEY <= d ->
       prepare_arms env this st 0)
  /\ (timeFromInstall = Num.of_Z 0 -> prepare_arms env this st (1000 * 60 * 60)).
Proof.
  intros Hel Hsch Hr Hinfo tfi.
  assert (Hr' : truthy_string (stored st REMIND_LATER_DATE_KEY) = false)
    by (rewrite Hr; reflexivity).
  pose proof (prepare_install_path sch info Hel Hsch Hr' Hinfo) as Hrun.
  cbv zeta in Hrun. fold tfi in Hrun.
  assert (Hyoung : forall d, tfi = Num.of_Z d -> d < MAX_INSTALL_AGE ->
            d < WAIT_TIME_TO_SHOW_SURVEY ->
            prepare_arms env this st (WAIT_TIME_TO_SHOW_SURVEY - d)).
  { intros d Hd Hmax Hwait. rewrite Hd in Hrun. cbn in Hrun.
    destruct (Z.ltb_spec d MAX_INSTALL_AGE); [|lia].
    destruct (Z.ltb_spec d WAIT_TIME_TO_SHOW_SURVEY); [|lia].
    apply (arms_of_run _ _ [_; _; _] Hrun); reflexivity. }
  split; [|split; [|split]].
  - intros [Hnan | (d & Hd & Hmax)].
    + rewrite Hnan in Hrun. cbn in Hrun.
      apply (skips_of_run _ [_; _; _] Hrun); reflexivity.
    + rewrite Hd in Hrun. cbn in Hrun.
      destruct (Z.ltb_spec d MAX_INSTALL_AGE); [lia|].
      apply (skips_of_run _ [_; _; _] Hrun); reflexivity.
  - exact Hyoung.
  - intros d Hd Hmax Hwait. rewrite Hd in Hrun. cbn in Hrun.
    destruct (Z.ltb_spec d MAX_INSTALL_AGE); [|lia].
    destruct (Z.ltb_spec d WAIT_TIME_TO_SHOW_SURVEY); [lia|].
    apply (arms_of_run _ _ [_; _; _] Hrun); reflexivity.
  - intros H0. apply (Hyoung 0 H0); reflexivity.
Qed.

(** C3. With a persisted reminder that parses to the instant [r] and a
    true eligibility treatment, [_prepareSurvey] arms the timer with
    [r + REMIND_LATER_DELAY - now] when that is positive and with 0
    otherwise; a reminder taken five hours ago, or exactly four hours ago,
    gives 0. *)
Theorem prepare_remind_later (sch : RunOnceScheduler) (r : Z) :
  eligibility this true ->
  promptScheduler st = Some sch ->
  stored st REMIND_LATER_DATE_KEY <> "" ->
  Date_getTime env (stored st REMIND_LATER_DATE_KEY) = Num.of_Z r ->
  let now := clock env (ticks st) in
  let timeToRemind := r + REMIND_LATER_DELAY - now in
  (0 < timeToRemind -> prepare_arms env this st timeToRemind)
  /\ (timeToRemind <= 0 -> prepare_arms env this st 0)
  /\ (r = now - 5 * (1000 * 60 * 60) -> prepare_arms env this st 0)
  /\ (r = now - 4 * (1000 * 60 * 60) -> prepare_arms env this st 0).
Proof.
  intros Hel Hsch Hne Hr now ttr.
  assert (Hr' : truthy_string (stored st REMIND_LATER_DATE_KEY) = true)
    by (destruct (stored st REMIND_LATER_DATE_KEY); [congruence | reflexivity]).
  pose proof (prepare_remind_path sch Hel Hsch Hr') as Hrun.
  cbv zeta in Hrun. rewrite Hr in Hrun. cbn in Hrun.
  fold now in Hrun. fold ttr in Hrun.
  assert (Hpast : ttr <= 0 -> prepare_arms env this st 0).
  { intros Hle. destruct (Z.ltb_spec 0 ttr); [lia|].
    apply (arms_of_run _ _ [_; _] Hrun); reflexivity. }
  split; [|split; [|split]].
  - intros Hpos. destruct (Z.ltb_spec 0 ttr); [|lia].
    apply (arms_of_run _ _ [_; _] Hrun); reflexivity.
  - exact Hpast.
  - intros ->. apply Hpast. unfold ttr, REMIND_LATER_DELAY. lia.
  - intros ->. apply Hpast. unfold ttr, REMIND_LATER_DELAY. lia.
Qed.

(** C9. A persisted reminder that does not parse as a date makes an
    eligible [_prepareSurvey] arm the timer with 0: the skip flag is not
    written and the installation is not treated as ineligible. *)
Theorem prepare_unparseable_reminder (sch : RunOnceScheduler) :
  eligibility this true ->
  promptScheduler st = Some sch ->
  stored st REMIND_LATER_DATE_KEY <> "" ->
  Date_getTime env (stored st REMIND_LATER_DATE_KEY) = Num.NaN ->
  prepare_arms env this st 0
  /\ storage (snd (_prepareSurvey env this st)) !! SKIP_SURVEY_KEY
     = storage st !! SKIP_SURVEY_KEY.
Proof.
  intros Hel Hsch Hne Hr.
  assert (Hr' : truthy_string (stored st REMIND_LATER_DATE_KEY) = true)
    by (destruct (stored st REMIND_LATER_DATE_KEY); [congruence | reflexivity]).
  pose proof (prepare_remind_path sch Hel Hsch Hr') as Hrun.
  cbv zeta in Hrun. rewrite Hr in Hrun. cbn in Hrun.
  split.
  - apply (arms_of_run _ _ [_; _] Hrun); reflexivity.
  - rewrite Hrun. reflexivity.
Qed.

(** C5. When the ["CESSurvey"] treatment is false or unavailable,
    [_prepareSurvey] performs exactly one write, the skip flag set to the
    product version; it writes no other key and does not arm the timer. *)
Theorem prepare_not_candidate :
  eligibility this false \/ eligibility_unavailable this ->
  prepare_skips env this st
  /\ (forall key, key <> SKIP_SURVEY_KEY ->
       storage (snd (_prepareSurvey env this st)) !! key = storage st !! key).
Proof.
  intros Hel.
  assert (Hskip : prepare_skips env this st).
  { destruct Hel as [(tas & Htas & Hc) | Hun].
    - apply (prepare_ineligible (Some false)); [rewrite Htas; exact Hc | reflexivity].
    - apply (prepare_ineligible None); [|reflexivity].
      unfold eligibility_unavailable in Hun.
      destruct (tasExperimentService this); [exact Hun | reflexivity]. }
  split; [exact Hskip|].
  intros key Hkey. destruct Hskip as (_ & _ & -> & _).
  apply lookup_insert_ne. congruence.
Qed.

(** C8. Whenever a non-empty reminder is persisted, [_prepareSurvey] never
    takes the install-age path: it does not ask for the telemetry info, its
    whole effect is independent of what that call would answer, and for an
    eligible installation it arms the timer with the wait computed from the
    reminder and writes no skip flag. *)
Theorem reminder_overrides_install_age :
  stored st REMIND_LATER_DATE_KEY <> "" ->
  telemetryInfo_reads (emitted (_prepareSurvey env this) st) = 0%nat
  /\ (forall ti,
        _prepareSurvey env (with_telemetryInfo ti this) st
        = _prepareSurvey env this st)
  /\ (forall sch, eligibility this true -> promptScheduler st = Some sch ->
        prepare_arms env this st
          match Date_getTime env (stored st REMIND_LATER_DATE_KEY) with
          | Some r => Z.max 0 (r + REMIND_LATER_DELAY - clock env (ticks st))
          | None => 0
          end).
Proof.
  intros Hne.
  assert (Hr : truthy_string (stored st REMIND_LATER_DATE_KEY) = true)
    by (destruct (stored st REMIND_LATER_DATE_KEY); [congruence | reflexivity]).
  split; [|split].
  - unfold emitted. run_task.
    destruct (tasExperimentService this) as [tas|]; run_task.
    + destruct (getTreatment_boolean tas "CESSurvey") as [[[|]|]|]; run_task;
        rewrite ?Hr; try destruct (promptScheduler st); run_task; flat_trace;
        rewrite drop_app_length; reflexivity.
    + rewrite drop_app_length. reflexivity.
  - intros ti. run_task. cbn [tasExperimentService with_telemetryInfo productService].
    destruct (tasExperimentService this) as [tas|]; run_task; [|reflexivity].
    destruct (getTreatment_boolean tas "CESSurvey") as [[[|]|]|]; run_task;
      try reflexivity.
    rewrite Hr. reflexivity.
  - intros sch Hel Hsch.
    pose proof (prepare_remind_path sch Hel Hsch Hr) as Hrun.
    cbv zeta in Hrun.
    destruct (Date_getTime env (stored st REMIND_LATER_DATE_KEY)) as [r|];
      cbn in Hrun.
    + destruct (Z.ltb_spec 0 (r + REMIND_LATER_DELAY - clock env (ticks st))).
      * rewrite Z.max_r by lia.
        apply (arms_of_run _ _ [_; _] Hrun); reflexivity.
      * rewrite Z.max_l by lia.
        apply (arms_of_run _ _ [_; _] Hrun); reflexivity.
    + apply (arms_of_run _ _ [_; _] Hrun); reflexivity.
Qed.

End Gating.

Section Construction.

Context (env : Env).

(** C6. With no survey URL in the product metadata (absent or empty), the
    constructor returns at once: the state is left as it was, so no timer is
    armed and no persisted key is read or written. *)
Theorem constructor_without_survey_url (this : Services) (st : State) :
  cesSurveyUrl (productService this) = None
  \/ cesSurveyUrl (productService this) = Some "" ->
  CESContribution env this st = (Fulfilled tt, st)
  /\ emitted (CESContribution env this) st = [].
Proof.
  intros Hurl.
  assert (Hrun : CESContribution env this st = (Fulfilled tt, st)).
  { unfold CESContribution. destruct Hurl as [-> | ->]; reflexivity. }
  split; [exact Hrun|].
  apply emitted_unchanged. rewrite Hrun. reflexivity.
Qed.

(** C10. The contribution is registered exactly when the UI language is
    ['en']; for any other language nothing is registered and bringing the
    workbench to [Restored] leaves the state as it was: no scheduler is
    created, no timer armed, no key read or written, no prompt shown. *)
Theorem registered_only_for_en :
  (registerWorkbenchContribution env = [CESContribution env]
   <-> language env = "en")
  /\ (language env <> "en" ->
      registerWorkbenchContribution env = []
      /\ forall this st,
           workbench_restored env this st = (Fulfilled tt, st)
           /\ emitted (workbench_restored env this) st = []).
Proof.
  unfold workbench_restored, registerWorkbenchContribution.
  destruct (String.eqb_spec (language env) "en") as [Hen | Hne].
  - split; [split; [intros _; exact Hen | reflexivity] | intros Hne; congruence].
  - split; [split; [discriminate | intros Hen; congruence] |].
    intros _. split; [reflexivity|].
    intros this st. split; [reflexivity|].
    apply emitted_unchanged. reflexivity.
Qed.

End Construction.

Section Prompt.

Context (env : Env) (this : Services).

Lemma string_app_assoc (a b c : string) : (a +:+ b) +:+ c = a +:+ b +:+ c.
Proof.
  induction a as [|x a IH]; [reflexivity|].
  change (String x (a +:+ b) +:+ c = String x (a +:+ b +:+ c)).
  change (String x ((a +:+ b) +:+ c) = String x (a +:+ b +:+ c)).
  rewrite IH. reflexivity.
Qed.

Lemma string_app_not_fixed (a : string) (x : ascii) : a +:+ String x "" <> a.
Proof.
  induction a as [|y a IH]; [discriminate|].
  change (String y (a +:+ String x "") <> String y a).
  intros H. injection H as H. exact (IH H).
Qed.

(** The link built by the code is the specified one with a closing brace
    appended. *)
Lemma surveyUrl_trailing_brace (info : ITelemetryInfo) :
  surveyUrl env this info = spec_surveyUrl env this info +:+ "}"
  /\ surveyUrl env this info <> spec_surveyUrl env this info.
Proof.
  assert (H : surveyUrl env this info = spec_surveyUrl env this info +:+ "}").
  { unfold surveyUrl, spec_surveyUrl. rewrite !string_app_assoc. reflexivity. }
  split; [exact H|]. rewrite H. apply string_app_not_fixed.
Qed.

(** Every path of [_prepareSurvey] only appends to the trace, logs no
    telemetry event, takes at most one decision and leaves the reminder
    key alone. *)
Lemma prepare_frame (st : State) :
  exists evs,
    trace (snd (_prepareSurvey env this st)) = trace st ++ evs
    /\ publicLogs evs = []
    /\ (decision_count evs <= 1)%nat
    /\ stored (snd (_prepareSurvey env this st)) REMIND_LATER_DATE_KEY
       = stored st REMIND_LATER_DATE_KEY.
Proof.
  assert (Hkey : forall v (m : gmap string string),
            default "" (<[SKIP_SURVEY_KEY := v]> m !! REMIND_LATER_DATE_KEY)
            = default "" (m !! REMIND_LATER_DATE_KEY)).
  { intros v m. rewrite lookup_insert_ne; [reflexivity | discriminate]. }
  run_task.
  destruct (tasExperimentService this) as [tas|]; run_task.
  2:{ eexists. split; [reflexivity|]. rewrite Hkey.
      repeat split; cbn; lia. }
  destruct (getTreatment_boolean tas "CESSurvey") as [[[|]|]|]; run_task.
  2-4: eexists; split; [flat_trace; reflexivity|]; rewrite ?Hkey;
       repeat split; cbn; lia.
  destruct (truthy_string _); run_task.
  - destruct (promptScheduler st); run_task;
      (eexists; split; [flat_trace; reflexivity|]; repeat split; cbn; lia).
  - destruct (telemetryInfo this) as [info|]; run_task.
    2:{ eexists; split; [flat_trace; reflexivity|]; repeat split; cbn; lia. }
    destruct (negb _ && _); run_task.
    + destruct (promptScheduler st); run_task;
        (eexists; split; [flat_trace; reflexivity|]; repeat split; cbn; lia).
    + eexists; split; [flat_trace; reflexivity|]. rewrite Hkey.
      repeat split; cbn; lia.
Qed.

(** What the primary choice does once the telemetry info is there: one
    telemetry event, the link opened, the skip flag persisted. *)
Lemma accept_choice_run (button : string) (st : State) (info : ITelemetryInfo) :
  telemetryInfo this = Fulfilled info ->
  exists c, promptChoices env this button !! 0%nat = Some c
    /\ label c = button
    /\ emitted (run c) st =
         [PublicLog "cesSurvey:popup" neverShowAgain;
          GetTelemetryInfo;
          OpenerOpen (spec_surveyUrl env this info +:+ "}");
          StorageStore SKIP_SURVEY_KEY (version (productService this))]
    /\ storage (snd (run c st))
       = <[SKIP_SURVEY_KEY := version (productService this)]> (storage st).
Proof.
  intros Hinfo. eexists. split; [reflexivity|]. split; [reflexivity|].
  destruct (surveyUrl_trailing_brace info) as [<- _].
  split.
  - apply emitted_app. cbn [run]. run_task. rewrite Hinfo. run_task.
    flat_trace. reflexivity.
  - cbn [run]. run_task. rewrite Hinfo. reflexivity.
Qed.

(** C4. The telemetry event of the primary (Accept) choice: the code logs
    exactly one event for it, and its [userReaction] is [neverShowAgain],
    the tag of the third choice, not [accept]. *)
Theorem accept_choice_telemetry_tag (button : string) (st : State) :
  exists c, promptChoices env this button !! 0%nat = Some c
    /\ label c = button
    /\ publicLogs (emitted (run c) st) = [("cesSurvey:popup", neverShowAgain)]
    /\ publicLogs (emitted (run c) st) <> [("cesSurvey:popup", accept)].
Proof.
  eexists. split; [reflexivity|]. split; [reflexivity|].
  assert (H : publicLogs (emitted (run (
              {| label := button;
                 run := sendTelemetry neverShowAgain;;
                        detach (info ← getTelemetryInfo this;
                                emit (OpenerOpen (surveyUrl env this info));;
                                _skipSurvey this) |})) st)
              = [("cesSurvey:popup", neverShowAgain)]).
  { unfold emitted. cbn [run]. run_task.
    destruct (telemetryInfo this) as [info|]; run_task; flat_trace;
      rewrite drop_app_length; reflexivity. }
  split; [exact H|]. cbn [promptChoices] in *. rewrite H. discriminate.
Qed.

(** C7. The Remind Later choice logs exactly one telemetry event, tagged
    [remindLater], overwrites the reminder key with the UTC string of the
    current instant, and then runs [_prepareSurvey] once, from the state
    these two effects leave. *)
Theorem remind_later_choice (button : string) (st : State) :
  let stamp := Date_toUTCString env (clock env (ticks st)) in
  let st1 :=
    {| storage := <[REMIND_LATER_DATE_KEY := stamp]> (storage st);
       promptScheduler := promptScheduler st;
       ticks := S (ticks st);
       trace := trace st ++ [PublicLog "cesSurvey:popup" remindLater;
                             StorageStore REMIND_LATER_DATE_KEY stamp] |} in
  exists c, promptChoices env this button !! 1%nat = Some c
    /\ label c = localize env "remindLater" "Remind Me later"
    /\ run c st = (Fulfilled tt, snd (_prepareSurvey env this st1))
    /\ emitted (run c) st =
         [PublicLog "cesSurvey:popup" remindLater;
          StorageStore REMIND_LATER_DATE_KEY stamp]
         ++ emitted (_prepareSurvey env this) st1
    /\ publicLogs (emitted (run c) st) = [("cesSurvey:popup", remindLater)]
    /\ stored (snd (run c st)) REMIND_LATER_DATE_KEY = stamp
    /\ (decision_count (emitted (run c) st) <= 1)%nat.
Proof.
  intros stamp st1.
  eexists. split; [reflexivity|]. split; [reflexivity|].
  destruct (prepare_frame st1) as (evs & Htr & Hlogs & Hdec & Hkey).
  assert (Hrun : forall m : Task unit,
            (sendTelemetry remindLater;;
             now ← Date_now env;
             storageService.store REMIND_LATER_DATE_KEY (Date_toUTCString env now);;
             detach m) st = (Fulfilled tt, snd (m st1))).
  { intros m. unfold st1, stamp. unfold sendTelemetry, emit, Date_now,
      storageService.store, detach, log, mbind, task_bind.
    cbn [fst snd storage promptScheduler ticks trace].
    flat_trace. reflexivity. }
  cbn [run]. rewrite Hrun. cbn [snd].
  assert (Hem : emitted (fun _ => (Fulfilled tt, snd (_prepareSurvey env this st1))) st
                = [PublicLog "cesSurvey:popup" remindLater;
                   StorageStore REMIND_LATER_DATE_KEY stamp] ++ evs).
  { apply emitted_app. cbn [snd]. rewrite Htr. unfold st1. cbn [trace].
    flat_trace. reflexivity. }
  assert (Hem' : emitted (sendTelemetry remindLater;;
             now ← Date_now env;
             storageService.store REMIND_LATER_DATE_KEY (Date_toUTCString env now);;
             detach (_prepareSurvey env this)) st
            = [PublicLog "cesSurvey:popup" remindLater;
               StorageStore REMIND_LATER_DATE_KEY stamp] ++ evs).
  { unfold emitted. rewrite Hrun. exact Hem. }
  rewrite Hem'. rewrite (emitted_app _ _ _ Htr).
  split; [reflexivity|]. split; [reflexivity|].
  split; [cbn; unfold publicLogs in Hlogs; rewrite Hlogs; reflexivity|].
  split.
  - rewrite Hkey. unfold stored, st1. cbn [storage].
    rewrite lookup_insert_eq. reflexivity.
  - exact Hdec.
Qed.

End Prompt.

(** * Runs on the concrete host *)

(** C1. On the sample host the primary (Accept) choice hands the opener the
    link with a closing brace after the machine id, which is not the link
    [?o=<platform>&v=<version>&m=<machineId>] of the interface; the skip
    flag is then persisted with the product version. *)
Theorem accept_choice_opens_braced_url :
  exists c,
    promptChoices (Sample.env "en" 36000000)
      (Sample.services (Some true) "Thu, 01 Jan 1970 00:00:00 GMT")
      "Give Feedback" !! 0%nat = Some c
    /\ opened (emitted (run c) (Sample.state []))
       = ["https://example.com/ces?o=linux&v=1.52.0&m=a%20b%2Fc}"]
    /\ spec_surveyUrl (Sample.env "en" 36000000)
         (Sample.services (Some true) "Thu, 01 Jan 1970 00:00:00 GMT")
         (Sample.info "Thu, 01 Jan 1970 00:00:00 GMT")
       = "https://example.com/ces?o=linux&v=1.52.0&m=a%20b%2Fc"
    /\ writes (emitted (run c) (Sample.state []))
       = [(SKIP_SURVEY_KEY, "1.52.0")].
Proof.
  eexists. split; [reflexivity|].
  split; [|split]; vm_compute; reflexivity.
Qed.

Lemma prepare_install_age_witness :
  eligibility (Sample.services (Some true) "Thu, 01 Jan 1970 00:00:00 GMT") true
  /\ promptScheduler (Sample.state []) = Some {| pending := None |}
  /\ stored (Sample.state []) REMIND_LATER_DATE_KEY = ""
  /\ telemetryInfo (Sample.services (Some true) "Thu, 01 Jan 1970 00:00:00 GMT")
     = Fulfilled (Sample.info "Thu, 01 Jan 1970 00:00:00 GMT")
  /\ prepare_arms (Sample.env "en" 0)
       (Sample.services (Some true) "Thu, 01 Jan 1970 00:00:00 GMT")
       (Sample.state []) 3600000.
Proof.
  assert (Hel : eligibility
            (Sample.services (Some true) "Thu, 01 Jan 1970 00:00:00 GMT") true)
    by (eexists; split; reflexivity).
  split; [exact Hel|].
  split; [reflexivity|]. split; [reflexivity|]. split; [reflexivity|].
  destruct (prepare_install_age (Sample.env "en" 0)
              (Sample.services (Some true) "Thu, 01 Jan 1970 00:00:00 GMT")
              (Sample.state []) {| pending := None |}
              (Sample.info "Thu, 01 Jan 1970 00:00:00 GMT")
              Hel eq_refl eq_refl eq_refl)
    as (_ & _ & _ & Hzero).
  apply Hzero. reflexivity.
Defined.

Lemma prepare_remind_later_witness :
  eligibility (Sample.services (Some true) "Thu, 01 Jan 1970 00:00:00 GMT") true
  /\ promptScheduler
       (Sample.state [(REMIND_LATER_DATE_KEY, "Thu, 01 Jan 1970 05:00:00 GMT")])
     = Some {| pending := None |}
  /\ stored (Sample.state [(REMIND_LATER_DATE_KEY, "Thu, 01 Jan 1970 05:00:00 GMT")])
       REMIND_LATER_DATE_KEY <> ""
  /\ Sample.getTime "Thu, 01 Jan 1970 05:00:00 GMT" = Num.of_Z 18000000
  /\ prepare_arms (Sample.env "en" 36000000)
       (Sample.services (Some true) "Thu, 01 Jan 1970 00:00:00 GMT")
       (Sample.state [(REMIND_LATER_DATE_KEY, "Thu, 01 Jan 1970 05:00:00 GMT")])
       0.
Proof.
  assert (Hel : eligibility
            (Sample.services (Some true) "Thu, 01 Jan 1970 00:00:00 GMT") true)
    by (eexists; split; reflexivity).
  assert (Hne : stored (Sample.state [(REMIND_LATER_DATE_KEY, "Thu, 01 Jan 1970 05:00:00 GMT")])
                  REMIND_LATER_DATE_KEY <> "")
    by (vm_compute; discriminate).
  split; [exact Hel|]. split; [reflexivity|].
  split; [exact Hne|]. split; [reflexivity|].
  destruct (prepare_remind_later (Sample.env "en" 36000000)
              (Sample.services (Some true) "Thu, 01 Jan 1970 00:00:00 GMT")
              (Sample.state [(REMIND_LATER_DATE_KEY, "Thu, 01 Jan 1970 05:00:00 GMT")])
              {| pending := None |} 18000000 Hel eq_refl Hne eq_refl)
    as (_ & _ & Hfive & _).
  apply Hfive. reflexivity.
Defined.

Lemma prepare_unparseable_reminder_witness :
  eligibility (Sample.services (Some true) "Thu, 01 Jan 1970 00:00:00 GMT") true
  /\ promptScheduler (Sample.state [(REMIND_LATER_DATE_KEY, "soon")])
     = Some {| pending := None |}
  /\ stored (Sample.state [(REMIND_LATER_DATE_KEY, "soon")]) REMIND_LATER_DATE_KEY <> ""
  /\ Sample.getTime "soon" = Num.NaN
  /\ prepare_arms (Sample.env "en" 36000000)
       (Sample.services (Some true) "Thu, 01 Jan 1970 00:00:00 GMT")
       (Sample.state [(REMIND_LATER_DATE_KEY, "soon")]) 0.
Proof.
  assert (Hel : eligibility
            (Sample.services (Some true) "Thu, 01 Jan 1970 00:00:00 GMT") true)
    by (eexists; split; reflexivity).
  assert (Hne : stored (Sample.state [(REMIND_LATER_DATE_KEY, "soon")])
                  REMIND_LATER_DATE_KEY <> "")
    by (vm_compute; discriminate).
  split; [exact Hel|]. split; [reflexivity|].
  split; [exact Hne|]. split; [reflexivity|].
  destruct (prepare_unparseable_reminder (Sample.env "en" 36000000)
              (Sample.services (Some true) "Thu, 01 Jan 1970 00:00:00 GMT")
              (Sample.state [(REMIND_LATER_DATE_KEY, "soon")])
              {| pending := None |} Hel eq_refl Hne eq_refl)
    as [Harms _].
  exact Harms.
Defined.

Lemma prepare_not_candidate_witness :
  eligibility (Sample.services (Some false) "Thu, 01 Jan 1970 00:00:00 GMT") false
  /\ prepare_skips (Sample.env "en" 0)
       (Sample.services (Some false) "Thu, 01 Jan 1970 00:00:00 GMT")
       (Sample.state []).
Proof.
  assert (Hel : eligibility
            (Sample.services (Some false) "Thu, 01 Jan 1970 00:00:00 GMT") false)
    by (eexists; split; reflexivity).
  split; [exact Hel|].
  destruct (prepare_not_candidate (Sample.env "en" 0)
              (Sample.services (Some false) "Thu, 01 Jan 1970 00:00:00 GMT")
              (Sample.state []) (or_introl Hel))
    as [Hskip _].
  exact Hskip.
Defined.

Lemma reminder_overrides_install_age_witness :
  stored (Sample.state [(REMIND_LATER_DATE_KEY, "Thu, 01 Jan 1970 05:00:00 GMT")])
    REMIND_LATER_DATE_KEY <> ""
  /\ telemetryInfo_reads
       (emitted (_prepareSurvey (Sample.env "en" 21600000)
                   (Sample.services (Some true) "Thu, 01 Jan 1970 00:00:00 GMT"))
          (Sample.state [(REMIND_LATER_DATE_KEY, "Thu, 01 Jan 1970 05:00:00 GMT")]))
     = 0%nat
  /\ prepare_arms (Sample.env "en" 21600000)
       (Sample.services (Some true) "Thu, 01 Jan 1970 00:00:00 GMT")
       (Sample.state [(REMIND_LATER_DATE_KEY, "Thu, 01 Jan 1970 05:00:00 GMT")])
       10800000.
Proof.
  assert (Hne : stored (Sample.state [(REMIND_LATER_DATE_KEY, "Thu, 01 Jan 1970 05:00:00 GMT")])
                  REMIND_LATER_DATE_KEY <> "")
    by (vm_compute; discriminate).
  split; [exact Hne|].
  pose proof (reminder_overrides_install_age (Sample.env "en" 21600000)
                (Sample.services (Some true) "Thu, 01 Jan 1970 00:00:00 GMT")
                (Sample.state [(REMIND_LATER_DATE_KEY, "Thu, 01 Jan 1970 05:00:00 GMT")])
                Hne) as (Hreads & _ & Harms).
  split; [exact Hreads|].
  apply (Harms {| pending := None |}).
  - eexists; split; reflexivity.
  - reflexivity.
Defined.

Lemma constructor_without_survey_url_witness :
  cesSurveyUrl (productService Sample.services_without_url) = None
  /\ CESContribution (Sample.env "en" 0) Sample.services_without_url (Sample.fresh [])
     = (Fulfilled tt, Sample.fresh []).
Proof.
  split; [reflexivity|].
  destruct (constructor_without_survey_url (Sample.env "en" 0)
              Sample.services_without_url (Sample.fresh []) (or_introl eq_refl))
    as [Hrun _].
  exact Hrun.
Defined.

Lemma registered_only_for_en_witness :
  language (Sample.env "de" 0) <> "en"
  /\ registerWorkbenchContribution (Sample.env "de" 0) = []
  /\ workbench_restored (Sample.env "de" 0)
       (Sample.services (Some true) "Thu, 01 Jan 1970 00:00:00 GMT")
       (Sample.fresh [])
     = (Fulfilled tt, Sample.fresh []).
Proof.
  assert (Hne : language (Sample.env "de" 0) <> "en") by discriminate.
  split; [exact Hne|].
  destruct (registered_only_for_en (Sample.env "de" 0)) as [_ Hother].
  destruct (Hother Hne) as [Hreg Hrun].
  split; [exact Hreg|].
  apply (Hrun (Sample.services (Some true) "Thu, 01 Jan 1970 00:00:00 GMT")
              (Sample.fresh [])).
Defined.

(** * Further properties of the contribution *)

Section Constructor.

Context (env : Env) (this : Services) (st : State).

(** The run of the constructor that finds the skip flag set. *)
Lemma constructor_stops_at_skip_flag :
  truthy_opt_string (cesSurveyUrl (productService this)) = true ->
  stored st SKIP_SURVEY_KEY <> "" ->
  CESContribution env this st
  = (Fulfilled tt, log (StorageGet SKIP_SURVEY_KEY) st).
Proof.
  intros Hurl Hskip.
  assert (Ht : truthy_string (stored st SKIP_SURVEY_KEY) = true)
    by (destruct (stored st SKIP_SURVEY_KEY); [congruence | reflexivity]).
  unfold CESContribution. rewrite Hurl. cbn [negb].
  unfold storageService.get, mbind, task_bind. rewrite Ht. reflexivity.
Qed.

(** X1. With a survey URL and a persisted skip flag the constructor stops after
    reading the flag: no scheduler is created, nothing else is read, nothing
    is written. *)
Theorem constructor_with_skip_flag :
  truthy_opt_string (cesSurveyUrl (productService this)) = true ->
  stored st SKIP_SURVEY_KEY <> "" ->
  fst (CESContribution env this st) = Fulfilled tt
  /\ emitted (CESContribution env this) st = [StorageGet SKIP_SURVEY_KEY]
  /\ storage (snd (CESContribution env this st)) = storage st
  /\ promptScheduler (snd (CESContribution env this st)) = promptScheduler st
  /\ ticks (snd (CESContribution env this st)) = ticks st.
Proof.
  intros Hurl Hskip.
  pose proof (constructor_stops_at_skip_flag Hurl Hskip) as Hrun.
  rewrite (emitted_app _ _ [StorageGet SKIP_SURVEY_KEY])
    by (rewrite Hrun; reflexivity).
  rewrite Hrun. repeat split; reflexivity.
Qed.

(** The state in which the constructor starts [_prepareSurvey]: the skip
    flag has been read and the scheduler created, not yet armed. *)
Lemma constructor_runs_prepare :
  truthy_opt_string (cesSurveyUrl (productService this)) = true ->
  stored st SKIP_SURVEY_KEY = "" ->
  CESContribution env this st =
    (Fulfilled tt,
     snd (_prepareSurvey env this
            {| storage := storage st;
               promptScheduler := Some {| pending := None |};
               ticks := ticks st;
               trace := trace st ++ [StorageGet SKIP_SURVEY_KEY] |})).
Proof.
  intros Hurl Hskip. unfold CESContribution. rewrite Hurl. cbn [negb].
  unfold storageService.get, mbind, task_bind. rewrite Hskip. reflexivity.
Qed.

(** X2. Construction on a new, eligible installation: with a survey URL, no skip
    flag and no reminder, an install of age [d] below [MAX_INSTALL_AGE]
    leaves the scheduler armed with [max 0 (WAIT_TIME_TO_SHOW_SURVEY - d)];
    nothing is written. *)
Theorem constructor_arms_new_install (info : ITelemetryInfo) (first : Z) :
  truthy_opt_string (cesSurveyUrl (productService this)) = true ->
  stored st SKIP_SURVEY_KEY = "" ->
  eligibility this true ->
  stored st REMIND_LATER_DATE_KEY = "" ->
  telemetryInfo this = Fulfilled info ->
  Date_getTime env (firstSessionDate info) = Num.of_Z first ->
  clock env (ticks st) - first < MAX_INSTALL_AGE ->
  let wait := Z.max 0 (WAIT_TIME_TO_SHOW_SURVEY - (clock env (ticks st) - first)) in
  emitted (CESContribution env this) st =
    [StorageGet SKIP_SURVEY_KEY; GetTreatment "CESSurvey";
     StorageGet REMIND_LATER_DATE_KEY; GetTelemetryInfo;
     Schedule (Num.of_Z wait)]
  /\ promptScheduler (snd (CESContribution env this st))
     = Some {| pending := Some (Num.of_Z wait) |}
  /\ storage (snd (CESContribution env this st)) = storage st.
Proof.
  intros Hurl Hskip Hel Hrem Hinfo Hfirst Hage wait.
  assert (Hrun := constructor_runs_prepare Hurl Hskip).
  rewrite (prepare_install_path env this
             {| storage := storage st;
                promptScheduler := Some {| pending := None |};
                ticks := ticks st;
                trace := trace st ++ [StorageGet SKIP_SURVEY_KEY] |}
             {| pending := None |} info Hel eq_refl) in Hrun;
    [| unfold stored in *; cbn [storage]; rewrite Hrem; reflexivity | exact Hinfo].
  cbn [ticks storage trace promptScheduler] in Hrun.
  rewrite Hfirst in Hrun. cbn [Num.sub Num.of_Z Num.isNaN Num.lt negb] in Hrun.
  destruct (Z.ltb_spec (clock env (ticks st) - first) MAX_INSTALL_AGE); [|lia].
  cbn [andb snd] in Hrun.
  match type of Hrun with
  | context [Schedule ?w] => assert (Hw : w = Num.of_Z wait)
  end.
  { unfold wait, Num.of_Z.
    destruct (Z.ltb_spec (clock env (ticks st) - first) WAIT_TIME_TO_SHOW_SURVEY);
      [rewrite Z.max_r by lia | rewrite Z.max_l by lia]; reflexivity. }
  rewrite Hw in Hrun.
  rewrite (emitted_app _ _
             [StorageGet SKIP_SURVEY_KEY; GetTreatment "CESSurvey";
              StorageGet REMIND_LATER_DATE_KEY; GetTelemetryInfo;
              Schedule (Num.of_Z wait)])
    by (rewrite Hrun; cbn [snd trace]; rewrite <- app_assoc; reflexivity).
  rewrite Hrun. repeat split; reflexivity.
Qed.

(** X3. Construction on an installation that is not new: with a survey URL, no
    skip flag, a true eligibility treatment and no reminder, an unparseable
    first-session date or an age of at least [MAX_INSTALL_AGE] persists the
    skip flag; the scheduler is created but never armed. *)
Theorem constructor_skips_old_install (info : ITelemetryInfo) :
  truthy_opt_string (cesSurveyUrl (productService this)) = true ->
  stored st SKIP_SURVEY_KEY = "" ->
  eligibility this true ->
  stored st REMIND_LATER_DATE_KEY = "" ->
  telemetryInfo this = Fulfilled info ->
  (Date_getTime env (firstSessionDate info) = Num.NaN
   \/ exists first, Date_getTime env (firstSessionDate info) = Num.of_Z first
        /\ MAX_INSTALL_AGE <= clock env (ticks st) - first) ->
  emitted (CESContribution env this) st =
    [StorageGet SKIP_SURVEY_KEY; GetTreatment "CESSurvey";
     StorageGet REMIND_LATER_DATE_KEY; GetTelemetryInfo;
     StorageStore SKIP_SURVEY_KEY (version (productService this))]
  /\ promptScheduler (snd (CESContribution env this st))
     = Some {| pending := None |}
  /\ storage (snd (CESContribution env this st))
     = <[SKIP_SURVEY_KEY := version (productService this)]> (storage st).
Proof.
  intros Hurl Hskip Hel Hrem Hinfo Hold.
  assert (Hrun := constructor_runs_prepare Hurl Hskip).
  rewrite (prepare_install_path env this
             {| storage := storage st;
                promptScheduler := Some {| pending := None |};
                ticks := ticks st;
                trace := trace st ++ [StorageGet SKIP_SURVEY_KEY] |}
             {| pending := None |} info Hel eq_refl) in Hrun;
    [| unfold stored in *; cbn [storage]; rewrite Hrem; reflexivity | exact Hinfo].
  cbn [ticks storage trace promptScheduler] in Hrun.
  assert (Hnot : negb (Num.isNaN (Num.sub (Num.of_Z (clock env (ticks st)))
                                   (Date_getTime env (firstSessionDate info))))
                 && Num.lt (Num.sub (Num.of_Z (clock env (ticks st)))
                              (Date_getTime env (firstSessionDate info)))
                      (Num.of_Z MAX_INSTALL_AGE) = false).
  { destruct Hold as [-> | (first & -> & Hmax)]; [reflexivity|].
    cbn. destruct (Z.ltb_spec (clock env (ticks st) - first) MAX_INSTALL_AGE);
      [lia | reflexivity]. }
  rewrite Hnot in Hrun. cbn [snd] in Hrun.
  rewrite (emitted_app _ _
             [StorageGet SKIP_SURVEY_KEY; GetTreatment "CESSurvey";
              StorageGet REMIND_LATER_DATE_KEY; GetTelemetryInfo;
              StorageStore SKIP_SURVEY_KEY (version (productService this))])
    by (rewrite Hrun; cbn [snd trace]; rewrite <- app_assoc; reflexivity).
  rewrite Hrun. repeat split; reflexivity.
Qed.

End Constructor.

Section Frame.

Context (env : Env) (this : Services) (st : State).

(** What every run of [_prepareSurvey] has in common, whichever path it
    takes and however the awaited promises settle. *)
Lemma prepare_invariants :
  exists evs,
    trace (snd (_prepareSurvey env this st)) = trace st ++ evs
    /\ publicLogs evs = []
    /\ opened evs = []
    /\ Forall (fun kv => kv = (SKIP_SURVEY_KEY, version (productService this)))
         (writes evs)
    /\ Forall (fun d => exists w, d = Num.of_Z w /\ 0 <= w) (schedules evs)
    /\ (length (writes evs) + length (schedules evs) <= 1)%nat
    /\ (schedules evs = [] ->
        promptScheduler (snd (_prepareSurvey env this st)) = promptScheduler st)
    /\ (forall d, schedules evs = [d] ->
        promptScheduler (snd (_prepareSurvey env this st))
        = Some {| pending := Some d |})
    /\ (forall key, key <> SKIP_SURVEY_KEY ->
        storage (snd (_prepareSurvey env this st)) !! key = storage st !! key)
    /\ (writes evs = [] -> storage (snd (_prepareSurvey env this st)) = storage st).
Proof.
  assert (Hkey : forall v (m : gmap string string) key,
            key <> SKIP_SURVEY_KEY -> <[SKIP_SURVEY_KEY := v]> m !! key = m !! key).
  { intros v m key Hne. apply lookup_insert_ne. congruence. }
  assert (Hfin : forall (tr : list Event) (ps : option RunOnceScheduler)
                   (sto : gmap string string) (evs : list Event),
            tr = trace st ++ evs ->
            publicLogs evs = [] -> opened evs = [] ->
            (writes evs = [(SKIP_SURVEY_KEY, version (productService this))]
             /\ schedules evs = []
             /\ ps = promptScheduler st
             /\ sto = <[SKIP_SURVEY_KEY := version (productService this)]> (storage st))
            \/ (writes evs = [] /\ schedules evs = []
                /\ ps = promptScheduler st
                /\ sto = storage st)
            \/ (exists w, 0 <= w /\ writes evs = []
                /\ schedules evs = [Num.of_Z w]
                /\ ps = Some {| pending := Some (Num.of_Z w) |}
                /\ sto = storage st) ->
            exists evs,
              tr = trace st ++ evs
              /\ publicLogs evs = []
              /\ opened evs = []
              /\ Forall (fun kv => kv = (SKIP_SURVEY_KEY, version (productService this)))
                   (writes evs)
              /\ Forall (fun d => exists w, d = Num.of_Z w /\ 0 <= w) (schedules evs)
              /\ (length (writes evs) + length (schedules evs) <= 1)%nat
              /\ (schedules evs = [] -> ps = promptScheduler st)
              /\ (forall d, schedules evs = [d] -> ps = Some {| pending := Some d |})
              /\ (forall key, key <> SKIP_SURVEY_KEY -> sto !! key = storage st !! key)
              /\ (writes evs = [] -> sto = storage st)).
  { intros tr ps sto evs Htr Hlog Hop Hcase. exists evs.
    split; [exact Htr|]. split; [exact Hlog|]. split; [exact Hop|].
    destruct Hcase as [(Hw & Hs & Hp & Hst) | [(Hw & Hs & Hp & Hst) | (w & Hpos & Hw & Hs & Hp & Hst)]];
      rewrite Hw, Hs, Hp, Hst.
    - repeat split; try (repeat constructor; fail); cbn; try lia; try discriminate.
      intros key Hne. apply Hkey. exact Hne.
    - repeat split; try (repeat constructor; fail); cbn; try lia; try discriminate.
    - repeat split; try (cbn; lia); try discriminate.
      + constructor.
      + repeat constructor. exists w. split; [reflexivity | exact Hpos].
      + intros d Hd. injection Hd as <-. reflexivity. }
  run_task.
  destruct (tasExperimentService this) as [tas|]; run_task.
  2:{ eapply Hfin; [reflexivity | reflexivity | reflexivity |].
      left. repeat split; reflexivity. }
  destruct (getTreatment_boolean tas "CESSurvey") as [[[|]|]|]; run_task.
  2-3: (eapply Hfin; [flat_trace; reflexivity | reflexivity | reflexivity |];
        left; repeat split; reflexivity).
  2:{ eapply Hfin; [flat_trace; reflexivity | reflexivity | reflexivity |].
      right; left. repeat split; reflexivity. }
  destruct (truthy_string _); run_task.
  - destruct (promptScheduler st) as [sch|] eqn:Hsch; run_task.
    2:{ eapply Hfin; [flat_trace; reflexivity | reflexivity | reflexivity |].
        right; left. rewrite ?Hsch. repeat split; reflexivity. }
    destruct (Date_getTime env _) as [r|]; cbn [Num.add Num.sub Num.gt Num.lt Num.of_Z].
    + destruct (Z.ltb_spec 0 (r + REMIND_LATER_DELAY - clock env (ticks st)));
        (eapply Hfin; [flat_trace; reflexivity | reflexivity | reflexivity |];
         right; right; eexists; split; [|repeat split; reflexivity]; lia).
    + eapply Hfin; [flat_trace; reflexivity | reflexivity | reflexivity |].
      right; right. exists 0. split; [lia | repeat split; reflexivity].
  - destruct (telemetryInfo this) as [info|]; run_task.
    2:{ eapply Hfin; [flat_trace; reflexivity | reflexivity | reflexivity |].
        right; left. repeat split; reflexivity. }
    destruct (Date_getTime env (firstSessionDate info)) as [f|];
      cbn [Num.add Num.sub Num.gt Num.lt Num.of_Z Num.isNaN negb andb].
    2:{ run_task. eapply Hfin; [flat_trace; reflexivity | reflexivity | reflexivity |].
        left. repeat split; reflexivity. }
    destruct (Z.ltb_spec (clock env (ticks st) - f) MAX_INSTALL_AGE); run_task.
    2:{ eapply Hfin; [flat_trace; reflexivity | reflexivity | reflexivity |].
        left. repeat split; reflexivity. }
    destruct (promptScheduler st) as [sch|] eqn:Hsch; run_task.
    2:{ eapply Hfin; [flat_trace; reflexivity | reflexivity | reflexivity |].
        right; left. rewrite ?Hsch. repeat split; reflexivity. }
    destruct (Z.ltb_spec (clock env (ticks st) - f) WAIT_TIME_TO_SHOW_SURVEY);
      (eapply Hfin; [flat_trace; reflexivity | reflexivity | reflexivity |];
       right; right; eexists; split; [|repeat split; reflexivity]; lia).
Qed.

(** X4. Whatever path it takes and however the awaited promises settle,
    [_prepareSurvey] logs no telemetry event and opens no link; every write
    it performs is the skip flag set to the product version, so all other
    keys (the reminder among them) keep their values; and it takes at most
    one decision: one write or one call of [schedule], never both. *)
Theorem prepare_touches_only_skip_flag :
  let evs := emitted (_prepareSurvey env this) st in
  let st' := snd (_prepareSurvey env this st) in
  publicLogs evs = []
  /\ opened evs = []
  /\ Forall (fun kv => kv = (SKIP_SURVEY_KEY, version (productService this)))
       (writes evs)
  /\ (length (writes evs) + length (schedules evs) <= 1)%nat
  /\ delete SKIP_SURVEY_KEY (storage st') = delete SKIP_SURVEY_KEY (storage st).
Proof.
  cbv zeta.
  destruct prepare_invariants
    as (evs & Htr & Hlog & Hop & Hw & _ & Hone & _ & _ & Hkey & _).
  rewrite (emitted_app _ _ _ Htr).
  split; [exact Hlog|]. split; [exact Hop|]. split; [exact Hw|].
  split; [exact Hone|].
  apply map_eq. intros key.
  destruct (decide (key = SKIP_SURVEY_KEY)) as [-> | Hne].
  - rewrite !lookup_delete_eq. reflexivity.
  - rewrite !lookup_delete_ne by congruence. apply Hkey. exact Hne.
Qed.

(** X5. Every delay [_prepareSurvey] passes to [schedule] is a number, never
    [NaN], and is not negative; the timer ends armed with the delay of that
    call, and is left as it was when [schedule] is not called. *)
Theorem prepare_delay_nonnegative :
  let evs := emitted (_prepareSurvey env this) st in
  let st' := snd (_prepareSurvey env this st) in
  Forall (fun d => exists w, d = Num.of_Z w /\ 0 <= w) (schedules evs)
  /\ (length (schedules evs) <= 1)%nat
  /\ promptScheduler st' =
     match schedules evs with
     | [] => promptScheduler st
     | d :: _ => Some {| pending := Some d |}
     end.
Proof.
  cbv zeta.
  destruct prepare_invariants
    as (evs & Htr & _ & _ & _ & Hpos & Hone & Hnone & Hsome & _ & _).
  rewrite (emitted_app _ _ _ Htr).
  split; [exact Hpos|]. split; [lia|].
  destruct (schedules evs) as [|d [|d' rest]] eqn:Hs.
  - apply Hnone. reflexivity.
  - apply Hsome. reflexivity.
  - cbn in Hone. lia.
Qed.

(** X6. A rejected ["CESSurvey"] lookup ends [_prepareSurvey] before any
    decision: the promise rejects, storage is neither read nor written, the
    skip flag is not persisted and the timer is left as it was. *)
Theorem prepare_treatment_rejected (tas : ITASExperimentService) :
  tasExperimentService this = Some tas ->
  getTreatment_boolean tas "CESSurvey" = Rejected ->
  fst (_prepareSurvey env this st) = Rejected
  /\ emitted (_prepareSurvey env this) st = [GetTreatment "CESSurvey"]
  /\ storage (snd (_prepareSurvey env this st)) = storage st
  /\ promptScheduler (snd (_prepareSurvey env this st)) = promptScheduler st.
Proof.
  intros Htas Hrej.
  assert (Hrun : _prepareSurvey env this st
                 = (Rejected, log (GetTreatment "CESSurvey") st)).
  { run_task. rewrite Htas. run_task. rewrite Hrej. reflexivity. }
  rewrite (emitted_app _ _ [GetTreatment "CESSurvey"])
    by (rewrite Hrun; reflexivity).
  rewrite Hrun. repeat split; reflexivity.
Qed.

(** X7. On the install-age path a rejected [getTelemetryInfo] ends
    [_prepareSurvey] before any decision: the promise rejects, nothing is
    written and the timer is left as it was. *)
Theorem prepare_telemetry_rejected :
  eligibility this true ->
  stored st REMIND_LATER_DATE_KEY = "" ->
  telemetryInfo this = Rejected ->
  fst (_prepareSurvey env this st) = Rejected
  /\ emitted (_prepareSurvey env this) st =
     [GetTreatment "CESSurvey"; StorageGet REMIND_LATER_DATE_KEY; GetTelemetryInfo]
  /\ storage (snd (_prepareSurvey env this st)) = storage st
  /\ promptScheduler (snd (_prepareSurvey env this st)) = promptScheduler st.
Proof.
  intros (tas & Htas & Hc) Hrem Hrej.
  assert (Hrun : _prepareSurvey env this st
                 = (Rejected,
                    {| storage := storage st;
                       promptScheduler := promptScheduler st;
                       ticks := ticks st;
                       trace := trace st ++ [GetTreatment "CESSurvey";
                                             StorageGet REMIND_LATER_DATE_KEY;
                                             GetTelemetryInfo] |})).
  { run_task. rewrite Htas. run_task. rewrite Hc. run_task.
    rewrite Hrem. cbn [truthy_string]. rewrite Hrej. run_task. flat_trace. reflexivity. }
  rewrite (emitted_app _ _ [GetTreatment "CESSurvey";
                            StorageGet REMIND_LATER_DATE_KEY; GetTelemetryInfo])
    by (rewrite Hrun; reflexivity).
  rewrite Hrun. repeat split; reflexivity.
Qed.

End Frame.

Section Choices.

Context (env : Env) (this : Services) (st : State).

(** X8. The third choice, "Don't Show Again": one telemetry event tagged
    [neverShowAgain], then the skip flag is persisted with the product
    version; nothing is opened and the timer is not touched. *)
Theorem never_again_choice (button : string) :
  exists c, promptChoices env this button !! 2%nat = Some c
    /\ label c = localize env "neverAgain" "Don't Show Again"
    /\ fst (run c st) = Fulfilled tt
    /\ emitted (run c) st =
         [PublicLog "cesSurvey:popup" neverShowAgain;
          StorageStore SKIP_SURVEY_KEY (version (productService this))]
    /\ storage (snd (run c st))
       = <[SKIP_SURVEY_KEY := version (productService this)]> (storage st)
    /\ promptScheduler (snd (run c st)) = promptScheduler st.
Proof.
  eexists. split; [reflexivity|]. split; [reflexivity|].
  cbn [run]. split; [reflexivity|].
  split; [|split; reflexivity].
  apply emitted_app. run_task. flat_trace. reflexivity.
Qed.


(** X10. The primary choice when [getTelemetryInfo] rejects: the telemetry event
    is logged, but no link is opened and the skip flag is not persisted; the
    click handler still returns normally. *)
Theorem accept_choice_telemetry_rejected (button : string) :
  telemetryInfo this = Rejected ->
  exists c, promptChoices env this button !! 0%nat = Some c
    /\ fst (run c st) = Fulfilled tt
    /\ emitted (run c) st =
         [PublicLog "cesSurvey:popup" neverShowAgain; GetTelemetryInfo]
    /\ storage (snd (run c st)) = storage st
    /\ promptScheduler (snd (run c st)) = promptScheduler st.
Proof.
  intros Hrej. eexists. split; [reflexivity|].
  cbn [run]. split; [reflexivity|].
  split; [|split].
  - apply emitted_app. run_task. rewrite Hrej. run_task. flat_trace. reflexivity.
  - run_task. rewrite Hrej. reflexivity.
  - run_task. rewrite Hrej. reflexivity.
Qed.

(** X11. [_skipSurvey] is idempotent on storage: a second call changes nothing,
    and a read of the skip key then yields the product version. *)
Theorem skipSurvey_idempotent :
  storage (snd (_skipSurvey this (snd (_skipSurvey this st))))
  = storage (snd (_skipSurvey this st))
  /\ stored (snd (_skipSurvey this (snd (_skipSurvey this st)))) SKIP_SURVEY_KEY
     = version (productService this)
  /\ writes (emitted (_skipSurvey this) st)
     = [(SKIP_SURVEY_KEY, version (productService this))].
Proof.
  split; [|split].
  - run_task. apply insert_insert_eq.
  - run_task. rewrite lookup_insert_eq. reflexivity.
  - rewrite (emitted_app _ _
               [StorageStore SKIP_SURVEY_KEY (version (productService this))])
      by reflexivity.
    reflexivity.
Qed.

End Choices.

Section Restart.

Context (env : Env) (this : Services).


End Restart.

Section Runner.

Context (env : Env) (this : Services) (st : State).

(** X13. The timer callback only asks for display copy and shows the prompt: it
    writes nothing, logs no telemetry, does not touch the timer.  When it
    completes it has shown exactly one prompt, sticky, with three choices
    labelled by the button text, "Remind Me later" and "Don't Show Again";
    when a lookup rejects it has shown none. *)
Theorem runner_shows_one_prompt :
  let evs := emitted (runner env this) st in
  writes evs = []
  /\ schedules evs = []
  /\ publicLogs evs = []
  /\ storage (snd (runner env this st)) = storage st
  /\ promptScheduler (snd (runner env this st)) = promptScheduler st
  /\ match fst (runner env this st) with
     | Fulfilled _ =>
         exists message button,
           prompts evs =
             [(message,
               [button;
                localize env "remindLater" "Remind Me later";
                localize env "neverAgain" "Don't Show Again"],
               true)]
     | Rejected => prompts evs = []
     end.
Proof.
  cbv zeta. unfold emitted, runner. run_task.
  destruct (tasExperimentService this) as [tas|]; run_task.
  - destruct (getTreatment_string tas "CESSurveyMessage") as [om|]; run_task.
    + destruct (getTreatment_string tas "CESSurveyButton") as [ob|]; run_task;
        flat_trace; rewrite drop_app_length; repeat split; eauto.
    + rewrite drop_app_length. repeat split; reflexivity.
  - rewrite drop_app_length. repeat split; eauto.
Qed.

(** X14. The display copy: each of the two lookups that yields [undefined] (or
    that is not made, for want of an experiment service) falls back to the
    localized default; any string the service answers, the empty string
    included, is shown as it is. *)
Theorem runner_copy_fallback (message button : option string) :
  copy_treatment this "CESSurveyMessage" = Fulfilled message ->
  copy_treatment this "CESSurveyButton" = Fulfilled button ->
  fst (runner env this st) = Fulfilled tt
  /\ prompts (emitted (runner env this) st) =
     [(default (localize env "cesSurveyQuestion"
         "Got a moment to help the VS Code team? Please tell us about your experience with VS Code so far.")
         message,
       [default (localize env "giveFeedback" "Give Feedback") button;
        localize env "remindLater" "Remind Me later";
        localize env "neverAgain" "Don't Show Again"],
       true)].
Proof.
  unfold copy_treatment, emitted, runner. intros Hm Hb. run_task.
  destruct (tasExperimentService this) as [tas|]; run_task.
  - rewrite Hm. run_task. rewrite Hb. run_task. flat_trace.
    rewrite drop_app_length. split; reflexivity.
  - injection Hm as <-. injection Hb as <-.
    rewrite drop_app_length. split; reflexivity.
Qed.

(** X15. A rejected copy lookup: the callback rejects and no prompt is shown;
    after a rejected message lookup the button lookup is not made. *)
Theorem runner_lookup_rejected :
  (copy_treatment this "CESSurveyMessage" = Rejected ->
   fst (runner env this st) = Rejected
   /\ emitted (runner env this) st = [GetTreatment "CESSurveyMessage"])
  /\ (forall message,
        copy_treatment this "CESSurveyMessage" = Fulfilled message ->
        copy_treatment this "CESSurveyButton" = Rejected ->
        fst (runner env this st) = Rejected
        /\ emitted (runner env this) st =
           [GetTreatment "CESSurveyMessage"; GetTreatment "CESSurveyButton"]).
Proof.
  unfold copy_treatment, emitted, runner. run_task.
  destruct (tasExperimentService this) as [tas|]; run_task.
  - split.
    + intros Hm. rewrite Hm. run_task. rewrite drop_app_length. split; reflexivity.
    + intros message Hm Hb. rewrite Hm. run_task. rewrite Hb. run_task.
      flat_trace. rewrite drop_app_length. split; reflexivity.
  - split; [discriminate|]. intros message _ Hb. discriminate.
Qed.

End Runner.

Section Reminder.

Context (env : Env) (this : Services) (st : State).

(** The state in which the Remind Later choice starts [_prepareSurvey]. *)
Lemma remind_later_run (button : string) :
  exists c, promptChoices env this button !! 1%nat = Some c
    /\ run c st =
       (Fulfilled tt,
        snd (_prepareSurvey env this
               {| storage :=
                    <[REMIND_LATER_DATE_KEY :=
                        Date_toUTCString env (clock env (ticks st))]> (storage st);
                  promptScheduler := promptScheduler st;
                  ticks := S (ticks st);
                  trace := trace st ++
                    [PublicLog "cesSurvey:popup" remindLater;
                     StorageStore REMIND_LATER_DATE_KEY
                       (Date_toUTCString env (clock env (ticks st)))] |})).
Proof.
  eexists. split; [reflexivity|]. cbn [run].
  unfold sendTelemetry, emit, Date_now, storageService.store, detach, log,
    mbind, task_bind.
  cbn [fst snd storage promptScheduler ticks trace].
  flat_trace. reflexivity.
Qed.

(** X16. Remind Later on an eligible installation: when the UTC string written
    for the instant of the click parses back to [r], the timer is re-armed
    with [max 0 (r + REMIND_LATER_DELAY - now)], [now] being the next read
    of the clock; the reminder is the only key written. *)
Theorem remind_later_rearms (button : string) (sch : RunOnceScheduler) (r : Z) :
  eligibility this true ->
  promptScheduler st = Some sch ->
  Date_toUTCString env (clock env (ticks st)) <> "" ->
  Date_getTime env (Date_toUTCString env (clock env (ticks st))) = Num.of_Z r ->
  let wait := Z.max 0 (r + REMIND_LATER_DELAY - clock env (S (ticks st))) in
  exists c, promptChoices env this button !! 1%nat = Some c
    /\ emitted (run c) st =
         [PublicLog "cesSurvey:popup" remindLater;
          StorageStore REMIND_LATER_DATE_KEY
            (Date_toUTCString env (clock env (ticks st)));
          GetTreatment "CESSurvey";
          StorageGet REMIND_LATER_DATE_KEY;
          Schedule (Num.of_Z wait)]
    /\ promptScheduler (snd (run c st))
       = Some {| pending := Some (Num.of_Z wait) |}
    /\ storage (snd (run c st))
       = <[REMIND_LATER_DATE_KEY :=
             Date_toUTCString env (clock env (ticks st))]> (storage st).
Proof.
  intros Hel Hsch Hne Hparse wait.
  destruct (remind_later_run button) as (c & Hc & Hrun).
  exists c. split; [exact Hc|].
  rewrite (prepare_remind_path env this
             {| storage :=
                  <[REMIND_LATER_DATE_KEY :=
                      Date_toUTCString env (clock env (ticks st))]> (storage st);
                promptScheduler := promptScheduler st;
                ticks := S (ticks st);
                trace := trace st ++
                  [PublicLog "cesSurvey:popup" remindLater;
                   StorageStore REMIND_LATER_DATE_KEY
                     (Date_toUTCString env (clock env (ticks st)))] |}
             sch Hel Hsch) in Hrun.
  2:{ unfold stored. cbn [storage]. rewrite lookup_insert_eq. cbn [default].
      destruct (Date_toUTCString env (clock env (ticks st)));
        [congruence | reflexivity]. }
  unfold stored in Hrun. cbn [storage ticks trace snd] in Hrun.
  rewrite lookup_insert_eq in Hrun. cbn [default] in Hrun. unfold id in Hrun.
  rewrite Hparse in Hrun. cbn [Num.add Num.sub Num.gt Num.lt Num.of_Z] in Hrun.
  match type of Hrun with
  | context [Schedule ?w] => assert (Hw : w = Num.of_Z wait)
  end.
  { unfold wait, Num.of_Z.
    destruct (Z.ltb_spec 0 (r + REMIND_LATER_DELAY - clock env (S (ticks st))));
      [rewrite Z.max_r by lia | rewrite Z.max_l by lia]; reflexivity. }
  rewrite Hw in Hrun.
  rewrite (emitted_app _ _
             [PublicLog "cesSurvey:popup" remindLater;
              StorageStore REMIND_LATER_DATE_KEY
                (Date_toUTCString env (clock env (ticks st)));
              GetTreatment "CESSurvey";
              StorageGet REMIND_LATER_DATE_KEY;
              Schedule (Num.of_Z wait)])
    by (rewrite Hrun; cbn [snd trace]; rewrite <- app_assoc; reflexivity).
  rewrite Hrun. repeat split; reflexivity.
Qed.

(** X17. Remind Later re-checks eligibility: when the ["CESSurvey"] treatment has
    become false or unavailable, the reminder is written and then the skip
    flag, and the timer is not re-armed. *)
Theorem remind_later_recheck_skips (button : string) :
  eligibility this false \/ eligibility_unavailable this ->
  exists c, promptChoices env this button !! 1%nat = Some c
    /\ writes (emitted (run c) st) =
         [(REMIND_LATER_DATE_KEY, Date_toUTCString env (clock env (ticks st)));
          (SKIP_SURVEY_KEY, version (productService this))]
    /\ schedules (emitted (run c) st) = []
    /\ promptScheduler (snd (run c st)) = promptScheduler st.
Proof.
  intros Hel.
  destruct (remind_later_run button) as (c & Hc & Hrun).
  exists c. split; [exact Hc|].
  assert (Hcand : exists cand,
             (match tasExperimentService this with
              | None => Fulfilled None
              | Some tas => getTreatment_boolean tas "CESSurvey"
              end) = Fulfilled cand /\ truthy_opt_bool cand = false).
  { destruct Hel as [(tas & Htas & Hf) | Hun].
    - exists (Some false). rewrite Htas. split; [exact Hf | reflexivity].
    - exists None. unfold eligibility_unavailable in Hun.
      destruct (tasExperimentService this); split; try reflexivity. exact Hun. }
  destruct Hcand as (cand & Hcand & Hfalse).
  match type of Hrun with
  | context [_prepareSurvey env this ?s] =>
      destruct (prepare_ineligible env this s cand Hcand Hfalse)
        as (Hw & Hs & _ & Hps);
      destruct (prepare_invariants env this s) as (evs & Htr & _)
  end.
  rewrite (emitted_app _ _ _ Htr) in Hw, Hs.
  cbn [promptScheduler] in Hps.
  rewrite (emitted_app _ _
             ([PublicLog "cesSurvey:popup" remindLater;
               StorageStore REMIND_LATER_DATE_KEY
                 (Date_toUTCString env (clock env (ticks st)))] ++ evs))
    by (rewrite Hrun; cbn [snd]; rewrite Htr; cbn [trace];
        rewrite <- app_assoc; reflexivity).
  rewrite Hrun. cbn [snd].
  unfold writes, schedules in *. rewrite !omap_app, Hw, Hs.
  split; [reflexivity|]. split; [reflexivity|]. exact Hps.
Qed.

End Reminder.

Section Bounds.

Context (env : Env) (this : Services) (st : State).

(** X18. A reminder taken at or before the current instant never postpones the
    prompt by more than [REMIND_LATER_DELAY]. *)
Theorem reminder_wait_bounded (sch : RunOnceScheduler) (r : Z) :
  eligibility this true ->
  promptScheduler st = Some sch ->
  stored st REMIND_LATER_DATE_KEY <> "" ->
  Date_getTime env (stored st REMIND_LATER_DATE_KEY) = Num.of_Z r ->
  r <= clock env (ticks st) ->
  exists wait, prepare_arms env this st wait
    /\ 0 <= wait <= REMIND_LATER_DELAY.
Proof.
  intros Hel Hsch Hne Hr Hpast.
  assert (Hr' : truthy_string (stored st REMIND_LATER_DATE_KEY) = true)
    by (destruct (stored st REMIND_LATER_DATE_KEY); [congruence | reflexivity]).
  pose proof (prepare_remind_path env this st sch Hel Hsch Hr') as Hrun.
  cbv zeta in Hrun. rewrite Hr in Hrun. cbn in Hrun.
  destruct (Z.ltb_spec 0 (r + REMIND_LATER_DELAY - clock env (ticks st))).
  - exists (r + REMIND_LATER_DELAY - clock env (ticks st)). split; [|lia].
    apply (arms_of_run env this st _ _ [_; _] Hrun); reflexivity.
  - exists 0. split; [|unfold REMIND_LATER_DELAY; lia].
    apply (arms_of_run env this st _ _ [_; _] Hrun); reflexivity.
Qed.

(** X19. A new installation whose first session is not in the future is
    prompted within [WAIT_TIME_TO_SHOW_SURVEY] of the gating. *)
Theorem install_wait_bounded (sch : RunOnceScheduler) (info : ITelemetryInfo)
    (first : Z) :
  eligibility this true ->
  promptScheduler st = Some sch ->
  stored st REMIND_LATER_DATE_KEY = "" ->
  telemetryInfo this = Fulfilled info ->
  Date_getTime env (firstSessionDate info) = Num.of_Z first ->
  first <= clock env (ticks st) ->
  clock env (ticks st) - first < MAX_INSTALL_AGE ->
  exists wait, prepare_arms env this st wait
    /\ 0 <= wait <= WAIT_TIME_TO_SHOW_SURVEY.
Proof.
  intros Hel Hsch Hrem Hinfo Hfirst Hpast Hage.
  assert (Hr' : truthy_string (stored st REMIND_LATER_DATE_KEY) = false)
    by (rewrite Hrem; reflexivity).
  pose proof (prepare_install_path env this st sch info Hel Hsch Hr' Hinfo) as Hrun.
  cbv zeta in Hrun. rewrite Hfirst in Hrun. cbn in Hrun.
  destruct (Z.ltb_spec (clock env (ticks st) - first) MAX_INSTALL_AGE); [|lia].
  destruct (Z.ltb_spec (clock env (ticks st) - first) WAIT_TIME_TO_SHOW_SURVEY).
  - exists (WAIT_TIME_TO_SHOW_SURVEY - (clock env (ticks st) - first)).
    split; [|lia].
    apply (arms_of_run env this st _ _ [_; _; _] Hrun); reflexivity.
  - exists 0. split; [|unfold WAIT_TIME_TO_SHOW_SURVEY; lia].
    apply (arms_of_run env this st _ _ [_; _; _] Hrun); reflexivity.
Qed.

End Bounds.

(** * Further runs on the concrete host *)

Lemma constructor_with_skip_flag_witness :
  truthy_opt_string
    (cesSurveyUrl (productService
       (Sample.services (Some true) "Thu, 01 Jan 1970 00:00:00 GMT"))) = true
  /\ stored (Sample.fresh [(SKIP_SURVEY_KEY, "1.51.0")]) SKIP_SURVEY_KEY <> ""
  /\ emitted (CESContribution (Sample.env "en" 0)
               (Sample.services (Some true) "Thu, 01 Jan 1970 00:00:00 GMT"))
       (Sample.fresh [(SKIP_SURVEY_KEY, "1.51.0")])
     = [StorageGet SKIP_SURVEY_KEY].
Proof.
  assert (Hne : stored (Sample.fresh [(SKIP_SURVEY_KEY, "1.51.0")]) SKIP_SURVEY_KEY <> "")
    by (vm_compute; discriminate).
  split; [reflexivity|]. split; [exact Hne|].
  destruct (constructor_with_skip_flag (Sample.env "en" 0)
              (Sample.services (Some true) "Thu, 01 Jan 1970 00:00:00 GMT")
              (Sample.fresh [(SKIP_SURVEY_KEY, "1.51.0")]) eq_refl Hne)
    as (_ & Hev & _).
  exact Hev.
Defined.

Lemma constructor_arms_new_install_witness :
  eligibility (Sample.services (Some true) "Thu, 01 Jan 1970 00:00:00 GMT") true
  /\ stored (Sample.fresh []) SKIP_SURVEY_KEY = ""
  /\ stored (Sample.fresh []) REMIND_LATER_DATE_KEY = ""
  /\ 0 - 0 < MAX_INSTALL_AGE
  /\ promptScheduler
       (snd (CESContribution (Sample.env "en" 0)
               (Sample.services (Some true) "Thu, 01 Jan 1970 00:00:00 GMT")
               (Sample.fresh [])))
     = Some {| pending := Some (Num.of_Z 3600000) |}.
Proof.
  assert (Hel : eligibility
            (Sample.services (Some true) "Thu, 01 Jan 1970 00:00:00 GMT") true)
    by (eexists; split; reflexivity).
  split; [exact Hel|]. split; [reflexivity|]. split; [reflexivity|].
  split; [reflexivity|].
  destruct (constructor_arms_new_install (Sample.env "en" 0)
              (Sample.services (Some true) "Thu, 01 Jan 1970 00:00:00 GMT")
              (Sample.fresh []) (Sample.info "Thu, 01 Jan 1970 00:00:00 GMT") 0
              eq_refl eq_refl Hel eq_refl eq_refl eq_refl eq_refl)
    as (_ & Hps & _).
  exact Hps.
Defined.

Lemma constructor_skips_old_install_witness :
  eligibility (Sample.services (Some true) "Thu, 01 Jan 1970 00:00:00 GMT") true
  /\ MAX_INSTALL_AGE <= 90000000 - 0
  /\ writes (emitted (CESContribution (Sample.env "en" 90000000)
                       (Sample.services (Some true) "Thu, 01 Jan 1970 00:00:00 GMT"))
               (Sample.fresh []))
     = [(SKIP_SURVEY_KEY, "1.52.0")]
  /\ promptScheduler
       (snd (CESContribution (Sample.env "en" 90000000)
               (Sample.services (Some true) "Thu, 01 Jan 1970 00:00:00 GMT")
               (Sample.fresh [])))
     = Some {| pending := None |}.
Proof.
  assert (Hel : eligibility
            (Sample.services (Some true) "Thu, 01 Jan 1970 00:00:00 GMT") true)
    by (eexists; split; reflexivity).
  assert (Hold : MAX_INSTALL_AGE <= 90000000 - 0) by (vm_compute; discriminate).
  split; [exact Hel|]. split; [exact Hold|].
  destruct (constructor_skips_old_install (Sample.env "en" 90000000)
              (Sample.services (Some true) "Thu, 01 Jan 1970 00:00:00 GMT")
              (Sample.fresh []) (Sample.info "Thu, 01 Jan 1970 00:00:00 GMT")
              eq_refl eq_refl Hel eq_refl eq_refl
              (or_intror (ex_intro _ 0 (conj eq_refl Hold))))
    as (Hev & Hps & _).
  split; [rewrite Hev; reflexivity | exact Hps].
Defined.

Lemma prepare_treatment_rejected_witness :
  getTreatment_boolean Sample.tas_rejecting "CESSurvey" = Rejected
  /\ fst (_prepareSurvey (Sample.env "en" 0)
            (Sample.services_of (Some Sample.tas_rejecting)
               (Fulfilled (Sample.info "Thu, 01 Jan 1970 00:00:00 GMT")))
            (Sample.state []))
     = Rejected
  /\ storage (snd (_prepareSurvey (Sample.env "en" 0)
                     (Sample.services_of (Some Sample.tas_rejecting)
                        (Fulfilled (Sample.info "Thu, 01 Jan 1970 00:00:00 GMT")))
                     (Sample.state [])))
     = storage (Sample.state []).
Proof.
  split; [reflexivity|].
  destruct (prepare_treatment_rejected (Sample.env "en" 0)
              (Sample.services_of (Some Sample.tas_rejecting)
                 (Fulfilled (Sample.info "Thu, 01 Jan 1970 00:00:00 GMT")))
              (Sample.state []) Sample.tas_rejecting eq_refl eq_refl)
    as (Hrej & _ & Hst & _).
  split; [exact Hrej | exact Hst].
Defined.

Lemma prepare_telemetry_rejected_witness :
  eligibility (Sample.services_of (Some (Sample.tas (Some true))) Rejected) true
  /\ stored (Sample.state []) REMIND_LATER_DATE_KEY = ""
  /\ fst (_prepareSurvey (Sample.env "en" 0)
            (Sample.services_of (Some (Sample.tas (Some true))) Rejected)
            (Sample.state []))
     = Rejected
  /\ promptScheduler
       (snd (_prepareSurvey (Sample.env "en" 0)
               (Sample.services_of (Some (Sample.tas (Some true))) Rejected)
               (Sample.state [])))
     = promptScheduler (Sample.state []).
Proof.
  assert (Hel : eligibility
            (Sample.services_of (Some (Sample.tas (Some true))) Rejected) true)
    by (eexists; split; reflexivity).
  split; [exact Hel|]. split; [reflexivity|].
  destruct (prepare_telemetry_rejected (Sample.env "en" 0)
              (Sample.services_of (Some (Sample.tas (Some true))) Rejected)
              (Sample.state []) Hel eq_refl eq_refl)
    as (Hrej & _ & _ & Hps).
  split; [exact Hrej | exact Hps].
Defined.


Lemma accept_choice_telemetry_rejected_witness :
  telemetryInfo (Sample.services_of (Some (Sample.tas (Some true))) Rejected)
  = Rejected
  /\ exists c,
       promptChoices (Sample.env "en" 0)
         (Sample.services_of (Some (Sample.tas (Some true))) Rejected)
         "Give Feedback" !! 0%nat = Some c
       /\ storage (snd (run c (Sample.state []))) = storage (Sample.state []).
Proof.
  split; [reflexivity|].
  destruct (accept_choice_telemetry_rejected (Sample.env "en" 0)
              (Sample.services_of (Some (Sample.tas (Some true))) Rejected)
              (Sample.state []) "Give Feedback" eq_refl)
    as (c & Hc & _ & _ & Hst & _).
  exists c. split; [exact Hc | exact Hst].
Defined.


Lemma runner_copy_fallback_witness :
  copy_treatment
    (Sample.services_of (Some (Sample.tas_copy (Some "") None)) Rejected)
    "CESSurveyMessage" = Fulfilled (Some "")
  /\ copy_treatment
       (Sample.services_of (Some (Sample.tas_copy (Some "") None)) Rejected)
       "CESSurveyButton" = Fulfilled None
  /\ prompts (emitted (runner (Sample.env "en" 0)
                         (Sample.services_of
                            (Some (Sample.tas_copy (Some "") None)) Rejected))
                (Sample.state []))
     = [("", ["Give Feedback"; "Remind Me later"; "Don't Show Again"], true)].
Proof.
  split; [reflexivity|]. split; [reflexivity|].
  destruct (runner_copy_fallback (Sample.env "en" 0)
              (Sample.services_of (Some (Sample.tas_copy (Some "") None)) Rejected)
              (Sample.state []) (Some "") None eq_refl eq_refl)
    as [_ Hprompt].
  exact Hprompt.
Defined.

Lemma runner_lookup_rejected_witness :
  copy_treatment
    (Sample.services_of (Some Sample.tas_rejecting) Rejected)
    "CESSurveyMessage" = Rejected
  /\ emitted (runner (Sample.env "en" 0)
                (Sample.services_of (Some Sample.tas_rejecting) Rejected))
       (Sample.state [])
     = [GetTreatment "CESSurveyMessage"].
Proof.
  split; [reflexivity|].
  destruct (runner_lookup_rejected (Sample.env "en" 0)
              (Sample.services_of (Some Sample.tas_rejecting) Rejected)
              (Sample.state []))
    as [Hmsg _].
  destruct (Hmsg eq_refl) as [_ Hev].
  exact Hev.
Defined.

Lemma remind_later_rearms_witness :
  eligibility (Sample.services (Some true) "Thu, 01 Jan 1970 00:00:00 GMT") true
  /\ Sample.toUTCString 3600000 <> ""
  /\ Sample.getTime (Sample.toUTCString 3600000) = Num.of_Z 3600000
  /\ exists c,
       promptChoices (Sample.env "en" 3600000)
         (Sample.services (Some true) "Thu, 01 Jan 1970 00:00:00 GMT")
         "Give Feedback" !! 1%nat = Some c
       /\ promptScheduler (snd (run c (Sample.state [])))
          = Some {| pending := Some (Num.of_Z 14400000) |}.
Proof.
  assert (Hel : eligibility
            (Sample.services (Some true) "Thu, 01 Jan 1970 00:00:00 GMT") true)
    by (eexists; split; reflexivity).
  assert (Hne : Sample.toUTCString 3600000 <> "") by (vm_compute; discriminate).
  split; [exact Hel|]. split; [exact Hne|]. split; [reflexivity|].
  destruct (remind_later_rearms (Sample.env "en" 3600000)
              (Sample.services (Some true) "Thu, 01 Jan 1970 00:00:00 GMT")
              (Sample.state []) "Give Feedback" {| pending := None |} 3600000
              Hel eq_refl Hne eq_refl)
    as (c & Hc & _ & Hps & _).
  exists c. split; [exact Hc | exact Hps].
Defined.

Lemma remind_later_recheck_skips_witness :
  eligibility (Sample.services (Some false) "Thu, 01 Jan 1970 00:00:00 GMT") false
  /\ exists c,
       promptChoices (Sample.env "en" 3600000)
         (Sample.services (Some false) "Thu, 01 Jan 1970 00:00:00 GMT")
         "Give Feedback" !! 1%nat = Some c
       /\ writes (emitted (run c) (Sample.state []))
          = [(REMIND_LATER_DATE_KEY, "Thu, 01 Jan 1970 01:00:00 GMT");
             (SKIP_SURVEY_KEY, "1.52.0")].
Proof.
  assert (Hel : eligibility
            (Sample.services (Some false) "Thu, 01 Jan 1970 00:00:00 GMT") false)
    by (eexists; split; reflexivity).
  split; [exact Hel|].
  destruct (remind_later_recheck_skips (Sample.env "en" 3600000)
              (Sample.services (Some false) "Thu, 01 Jan 1970 00:00:00 GMT")
              (Sample.state []) "Give Feedback" (or_introl Hel))
    as (c & Hc & Hw & _).
  exists c. split; [exact Hc | exact Hw].
Defined.

Lemma reminder_wait_bounded_witness :
  eligibility (Sample.services (Some true) "Thu, 01 Jan 1970 00:00:00 GMT") true
  /\ stored (Sample.state [(REMIND_LATER_DATE_KEY, "Thu, 01 Jan 1970 05:00:00 GMT")])
       REMIND_LATER_DATE_KEY <> ""
  /\ 18000000 <= 21600000
  /\ exists wait,
       prepare_arms (Sample.env "en" 21600000)
         (Sample.services (Some true) "Thu, 01 Jan 1970 00:00:00 GMT")
         (Sample.state [(REMIND_LATER_DATE_KEY, "Thu, 01 Jan 1970 05:00:00 GMT")])
         wait
       /\ 0 <= wait <= REMIND_LATER_DELAY.
Proof.
  assert (Hel : eligibility
            (Sample.services (Some true) "Thu, 01 Jan 1970 00:00:00 GMT") true)
    by (eexists; split; reflexivity).
  assert (Hne : stored (Sample.state [(REMIND_LATER_DATE_KEY, "Thu, 01 Jan 1970 05:00:00 GMT")])
                  REMIND_LATER_DATE_KEY <> "")
    by (vm_compute; discriminate).
  assert (Hpast : 18000000 <= 21600000) by (vm_compute; discriminate).
  split; [exact Hel|]. split; [exact Hne|]. split; [exact Hpast|].
  exact (reminder_wait_bounded (Sample.env "en" 21600000)
           (Sample.services (Some true) "Thu, 01 Jan 1970 00:00:00 GMT")
           (Sample.state [(REMIND_LATER_DATE_KEY, "Thu, 01 Jan 1970 05:00:00 GMT")])
           {| pending := None |} 18000000 Hel eq_refl Hne eq_refl Hpast).
Defined.

Lemma install_wait_bounded_witness :
  eligibility (Sample.services (Some true) "Thu, 01 Jan 1970 00:00:00 GMT") true
  /\ stored (Sample.state []) REMIND_LATER_DATE_KEY = ""
  /\ 0 <= 3600000
  /\ 3600000 - 0 < MAX_INSTALL_AGE
  /\ exists wait,
       prepare_arms (Sample.env "en" 3600000)
         (Sample.services (Some true) "Thu, 01 Jan 1970 00:00:00 GMT")
         (Sample.state []) wait
       /\ 0 <= wait <= WAIT_TIME_TO_SHOW_SURVEY.
Proof.
  assert (Hel : eligibility
            (Sample.services (Some true) "Thu, 01 Jan 1970 00:00:00 GMT") true)
    by (eexists; split; reflexivity).
  assert (Hpast : 0 <= 3600000) by (vm_compute; discriminate).
  split; [exact Hel|]. split; [reflexivity|]. split; [exact Hpast|].
  split; [reflexivity|].
  exact (install_wait_bounded (Sample.env "en" 3600000)
           (Sample.services (Some true) "Thu, 01 Jan 1970 00:00:00 GMT")
           (Sample.state []) {| pending := None |}
           (Sample.info "Thu, 01 Jan 1970 00:00:00 GMT") 0
           Hel eq_refl eq_refl eq_refl eq_refl Hpast eq_refl).
Defined.
